(** * Swachh Scan backend: the feedback lifecycle and the statistics endpoint

    A shallow embedding of [main.py] and [schemas.py].  MongoDB documents are
    finite maps from field names to values, a collection is the list of its
    documents in insertion order, the module-level handle [db] is the world
    state, and every handler is a computation in a small state-and-exception
    monad.  Clock readings ([datetime.now]) and the identifier generated by
    an insertion are inputs of the handler that consumes them. *)

From Stdlib Require Import ZArith Ascii String.
From stdpp Require Import gmap strings list sorting.

Open Scope string_scope.
Open Scope Z_scope.

(** ** Values and documents *)

(** A BSON ObjectId, kept as the 24 lowercase hexadecimal digits that
    [str] prints. *)
Definition oid := string.

(** The Python values that occur in documents.  Coordinates are only carried
    around, never computed on: a float is its 64-bit pattern.  A datetime is
    a number of milliseconds, the precision MongoDB stores. *)
Inductive value :=
| VNone
| VBool (b : bool)
| VInt (z : Z)
| VFloat (bits : Z)
| VStr (s : string)
| VDate (t : Z)
| VOid (o : oid).

Global Instance value_eq_dec : EqDecision value.
Proof. solve_decision. Defined.

(** A Python dict with string keys. *)
Abbreviation dict := (gmap string value).

(** A stored document: MongoDB gives every document an [_id], and every
    collection here is filled by [insert_one], which generates an ObjectId. *)
Record document := Document { _id : oid; fields : dict }.

Global Instance document_eq_dec : EqDecision document.
Proof. solve_decision. Defined.

(** The dict a query sees and a cursor yields. *)
Definition as_dict (d : document) : dict := <["_id" := VOid (_id d)]> (fields d).

(** [v is not None] *)
Definition is_not_None (v : value) : bool :=
  match v with VNone => false | _ => true end.

(** ** ObjectId *)

Definition is_hex (a : ascii) : bool :=
  let n := nat_of_ascii a in
  ((48 <=? n) && (n <=? 57) || (97 <=? n) && (n <=? 102) || (65 <=? n) && (n <=? 70))%nat.

Definition lower_hex (a : ascii) : ascii :=
  let n := nat_of_ascii a in
  if ((65 <=? n) && (n <=? 70))%nat then ascii_of_nat (n + 32) else a.

Fixpoint string_forallb (f : ascii -> bool) (s : string) : bool :=
  match s with
  | EmptyString => true
  | String a s' => f a && string_forallb f s'
  end.

Fixpoint string_map (f : ascii -> ascii) (s : string) : string :=
  match s with
  | EmptyString => EmptyString
  | String a s' => String (f a) (string_map f s')
  end.

(** [ObjectId.is_valid] on a string: exactly 24 hexadecimal digits. *)
Definition ObjectId_is_valid (s : string) : bool :=
  (String.length s =? 24)%nat && string_forallb is_hex s.

(** [ObjectId(s)]: [None] stands for the [InvalidId] exception. *)
Definition ObjectId (s : string) : option oid :=
  if ObjectId_is_valid s then Some (string_map lower_hex s) else None.

(** ** Exceptions and the handler monad *)

Inductive exn :=
| HTTPException (status_code : Z) (detail : string)
| ValueError (msg : string)
| TypeError (msg : string)
| RequestValidationError (fields : list string)
| ValidationError (fields : list string)
| InvalidId
| DuplicateKeyError.

Global Instance exn_eq_dec : EqDecision exn.
Proof. solve_decision. Defined.

(** The errors of the specification's taxonomy.  A validation error is
    pydantic's, raised by the framework on the request body or inside a
    handler by a model constructor. *)
Definition NotFound (e : exn) : Prop := exists detail, e = HTTPException 404 detail.
Definition IsValidationError (e : exn) : Prop :=
  exists fields, e = RequestValidationError fields \/ e = ValidationError fields.
Definition StoreUnavailable (e : exn) : Prop := exists detail, e = HTTPException 500 detail.

Inductive outcome (A : Type) :=
| Return (a : A)
| Raise (e : exn).
Arguments Return {A} a.
Arguments Raise {A} e.

(** A database: collections by name; a collection that was never written
    is empty. *)
Abbreviation database := (gmap string (list document)).

(** The module-level [db], [None] when the store is not configured. *)
Definition World := option database.

Definition M (A : Type) : Type := World -> outcome A * World.

Definition ret {A} (a : A) : M A := fun w => (Return a, w).
Definition raise {A} (e : exn) : M A := fun w => (Raise e, w).
Definition bind {A B} (m : M A) (k : A -> M B) : M B :=
  fun w => match m w with
           | (Return a, w') => k a w'
           | (Raise e, w') => (Raise e, w')
           end.

Notation "'let!' x ':=' m 'in' k" := (bind m (fun x => k))
  (at level 10, x name, m at level 200, k at level 200).

(** [if db is None: raise HTTPException(500, ...)] *)
Definition require_db : M unit :=
  fun w => match w with
           | None => (Raise (HTTPException 500 "Database not configured"), w)
           | Some _ => (Return tt, w)
           end.

(** [db[name]] *)
Definition collection (name : string) : M (list document) :=
  fun w => match w with
           | None => (Raise (TypeError "'NoneType' object is not subscriptable"), w)
           | Some d => (Return (default [] (d !! name)), w)
           end.

Definition set_collection (name : string) (c : list document) : M unit :=
  fun w => match w with
           | None => (Raise (TypeError "'NoneType' object is not subscriptable"), w)
           | Some d => (Return tt, Some (<[name := c]> d))
           end.

(** ** MongoDB operations *)

(** One [field: value] pair of an equality query; a [None] value also
    matches a document without the field. *)
Definition field_matches (d : dict) (k : string) (v : value) : Prop :=
  match v with
  | VNone => d !! k = None \/ d !! k = Some VNone
  | _ => d !! k = Some v
  end.

Global Instance field_matches_dec d k v : Decision (field_matches d k v).
Proof. unfold field_matches; destruct v; apply _. Defined.

Definition matches (query : dict) (d : document) : Prop :=
  map_Forall (field_matches (as_dict d)) query.

Global Instance matches_dec query d : Decision (matches query d).
Proof. unfold matches; apply _. Defined.

(** [{"$set": upd}] on one document; no handler puts [_id] in a [$set]. *)
Definition apply_set (upd : dict) (d : document) : document :=
  {| _id := _id d; fields := upd ∪ fields d |}.

(** [find(query)] in natural order, and [find_one(query)]. *)
Definition find (query : dict) (c : list document) : list document :=
  filter (matches query) c.

Definition find_one_in (query : dict) (c : list document) : option document :=
  head (find query c).

(** [update_one(query, {"$set": upd})]: the first match is updated; the
    result is [matched_count] and the new collection.  Without a match
    nothing is written. *)
Fixpoint update_one_in (query upd : dict) (c : list document) : nat * list document :=
  match c with
  | [] => (0%nat, [])
  | d :: c' =>
      if decide (matches query d) then (1%nat, apply_set upd d :: c')
      else let '(n, c'') := update_one_in query upd c' in (n, d :: c'')
  end.

Definition find_one (name : string) (query : dict) : M (option document) :=
  let! c := collection name in
  ret (find_one_in query c).

Definition update_one (name : string) (query upd : dict) : M nat :=
  let! c := collection name in
  match update_one_in query upd c with
  | (O, _) => ret 0%nat
  | (n, c') => let! _ := set_collection name c' in ret n
  end.

(** [insert_one(data)] with the generated identifier [new_id]; the unique
    index on [_id] refuses an identifier already in the collection. *)
Definition insert_one (name : string) (data : dict) (new_id : oid) : M oid :=
  let! c := collection name in
  if decide (new_id ∈ map _id c) then raise DuplicateKeyError
  else let! _ := set_collection name (c ++ [Document new_id data]) in
       ret new_id.

(** [count_documents(query)] *)
Definition count_documents (name : string) (query : dict) : M Z :=
  let! c := collection name in
  ret (Z.of_nat (length (find query c))).

(** [sort(field, -1)]: descending on a datetime field.  Only [created_at] is
    sorted on; it is written by [create_document] alone, always as a
    datetime, and a document without one sorts as null, below every date. *)
Definition date_of (field : string) (d : document) : option Z :=
  match as_dict d !! field with
  | Some (VDate t) => Some t
  | _ => None
  end.

Definition key_le (a b : option Z) : Prop :=
  match a, b with
  | None, _ => True
  | Some _, None => False
  | Some x, Some y => x <= y
  end.

Global Instance key_le_dec a b : Decision (key_le a b).
Proof. destruct a, b; simpl; apply _. Defined.

Definition newer_first (field : string) : relation document :=
  fun d1 d2 => key_le (date_of field d2) (date_of field d1).

Global Instance newer_first_dec field d1 d2 : Decision (newer_first field d1 d2).
Proof. unfold newer_first; apply _. Defined.

Definition sort_desc (field : string) (docs : list document) : list document :=
  merge_sort (newer_first field) docs.

(** [cursor.limit(n)]: pymongo sends [abs(n)] to the server and 0 means no
    limit (a negative [n] also asks for a single batch, which is not
    modelled; no length is claimed below for a negative limit). *)
Definition cursor_limit (n : Z) (docs : list document) : list document :=
  if decide (n = 0) then docs else take (Z.to_nat (Z.abs n)) docs.

(** ** Helpers of [main.py] *)

(** [PyObjectId.validate] on a path parameter (a [str], never an ObjectId
    instance). *)
Definition PyObjectId_validate (v : string) : M oid :=
  match ObjectId v with
  | Some o => ret o
  | None => raise (ValueError "Invalid ObjectId")
  end.

(** A value of a serialized document: as [value], but a datetime has been
    replaced by the string [isoformat] renders, kept as [RIso t] (nothing in
    the program looks inside that string). *)
Inductive rvalue :=
| RNone
| RBool (b : bool)
| RInt (z : Z)
| RFloat (bits : Z)
| RStr (s : string)
| RIso (t : Z)
| ROid (o : oid).

Global Instance rvalue_eq_dec : EqDecision rvalue.
Proof. solve_decision. Defined.

Abbreviation rdict := (gmap string rvalue).

(** [doc[k] = v.isoformat()] if [v] is a datetime, [v] otherwise. *)
Definition serialize_value (v : value) : rvalue :=
  match v with
  | VNone => RNone
  | VBool b => RBool b
  | VInt z => RInt z
  | VFloat f => RFloat f
  | VStr s => RStr s
  | VDate t => RIso t
  | VOid o => ROid o
  end.

(** [serialize_doc]: [None] is returned as it is; otherwise [_id] is popped
    and its string stored under [id], and every datetime is rendered.  (A
    stored document is never the empty dict, it has its [_id].) *)
Definition serialize_doc (doc : option document) : option rdict :=
  match doc with
  | None => None
  | Some d =>
      Some (<["id" := RStr (_id d)]> (serialize_value <$> delete "_id" (as_dict d)))
  end.

(** [not doc] for the result of [find_one]. *)
Definition falsy_doc (doc : option document) : bool :=
  match doc with
  | None => true
  | Some d => bool_decide (as_dict d = ∅)
  end.

Definition opt {A} (f : A -> value) (o : option A) : value :=
  match o with Some a => f a | None => VNone end.

(** [{k: v for k, v in d.items() if v is not None}] *)
Definition drop_None (d : dict) : dict :=
  filter (fun kv => is_not_None kv.2 = true) d.

(** [d.setdefault(k, v)], for its effect on [d]. *)
Definition setdefault (k : string) (v : value) (d : dict) : dict :=
  match d !! k with
  | Some _ => d
  | None => <[k := v]> d
  end.

(** ** Schemas ([schemas.py]) and request bodies ([main.py]) *)

Module FeedbackCreate.
(** The body of [POST /api/feedback], fields already of their Python
    types. *)
Record t := Build {
  facility_code : string;
  rating : Z;
  comment : option string;
  photo_url : option string;
  user_lat : option Z;
  user_lng : option Z;
}.

(** [rating: int = Field(..., ge=1, le=5)], checked by the framework
    before the handler is called. *)
Definition valid (p : t) : bool := (1 <=? rating p) && (rating p <=? 5).
End FeedbackCreate.

Module Feedback.
(** [schemas.Feedback] *)
Record t := Build {
  facility_code : string;
  rating : Z;
  comment : option string;
  photo_url : option string;
  status : string;
  assigned_to : option string;
  before_photo_url : option string;
  after_photo_url : option string;
  user_lat : option Z;
  user_lng : option Z;
  staff_start_lat : option Z;
  staff_start_lng : option Z;
  staff_complete_lat : option Z;
  staff_complete_lng : option Z;
  started_at : option Z;
  resolved_at : option Z;
}.

Definition model_dump (f : t) : dict :=
  list_to_map
    [ ("facility_code", VStr (facility_code f));
      ("rating", VInt (rating f));
      ("comment", opt VStr (comment f));
      ("photo_url", opt VStr (photo_url f));
      ("status", VStr (status f));
      ("assigned_to", opt VStr (assigned_to f));
      ("before_photo_url", opt VStr (before_photo_url f));
      ("after_photo_url", opt VStr (after_photo_url f));
      ("user_lat", opt VFloat (user_lat f));
      ("user_lng", opt VFloat (user_lng f));
      ("staff_start_lat", opt VFloat (staff_start_lat f));
      ("staff_start_lng", opt VFloat (staff_start_lng f));
      ("staff_complete_lat", opt VFloat (staff_complete_lat f));
      ("staff_complete_lng", opt VFloat (staff_complete_lng f));
      ("started_at", opt VDate (started_at f));
      ("resolved_at", opt VDate (resolved_at f)) ].
End Feedback.

Module Facility.
(** [schemas.Facility] *)
Record t := Build {
  code : string;
  name : string;
  address : option string;
  lat : option Z;
  lng : option Z;
  ward : option string;
  is_active : bool;
}.

Definition model_dump (f : t) : dict :=
  list_to_map
    [ ("code", VStr (code f));
      ("name", VStr (name f));
      ("address", opt VStr (address f));
      ("lat", opt VFloat (lat f));
      ("lng", opt VFloat (lng f));
      ("ward", opt VStr (ward f));
      ("is_active", VBool (is_active f)) ].
End Facility.

Module Staff.
(** [schemas.Staff] *)
Record t := Build {
  name : string;
  phone : option string;
  employee_id : option string;
  ward : option string;
  is_active : bool;
}.

Definition model_dump (f : t) : dict :=
  list_to_map
    [ ("name", VStr (name f));
      ("phone", opt VStr (phone f));
      ("employee_id", opt VStr (employee_id f));
      ("ward", opt VStr (ward f));
      ("is_active", VBool (is_active f)) ].
End Staff.

Module AssignPayload.
Record t := Build { staff_id : string }.
End AssignPayload.

Module StartPayload.
Record t := Build {
  before_photo_url : option string;
  staff_start_lat : option Z;
  staff_start_lng : option Z;
}.

Definition model_dump (p : t) : dict :=
  list_to_map
    [ ("before_photo_url", opt VStr (before_photo_url p));
      ("staff_start_lat", opt VFloat (staff_start_lat p));
      ("staff_start_lng", opt VFloat (staff_start_lng p)) ].
End StartPayload.

Module ResolvePayload.
Record t := Build {
  after_photo_url : option string;
  staff_complete_lat : option Z;
  staff_complete_lng : option Z;
}.

Definition model_dump (p : t) : dict :=
  list_to_map
    [ ("after_photo_url", opt VStr (after_photo_url p));
      ("staff_complete_lat", opt VFloat (staff_complete_lat p));
      ("staff_complete_lng", opt VFloat (staff_complete_lng p)) ].
End ResolvePayload.

(** Modelled from the spec: [create_document] of the [database] module, which
    is not part of the sources.  The specification has it store the record
    under a generated identity with its creation timestamp and hand the
    identity back as a string; [get_documents] returns a collection's
    documents. *)
Definition create_document (collection_name : string) (data : dict)
    (now : Z) (new_id : oid) : M string :=
  insert_one collection_name (<["created_at" := VDate now]> data) new_id.

Definition get_documents (collection_name : string) : M (list document) :=
  let! c := collection collection_name in
  ret (find ∅ c).

(** [ObjectId(s)] inside a handler. *)
Definition ObjectId_new (s : string) : M oid :=
  match ObjectId s with
  | Some o => ret o
  | None => raise InvalidId
  end.

(** ** The handlers of [main.py] *)

(** *** Facilities and staff *)

Definition create_facility (payload : Facility.t) (now : Z) (new_id : oid)
    : M (option rdict) :=
  let! _ := require_db in
  let! existing := find_one "facility" {["code" := VStr (Facility.code payload)]} in
  if negb (falsy_doc existing)
  then raise (HTTPException 400 "Facility code already exists")
  else
    let! inserted_id := create_document "facility" (Facility.model_dump payload)
                          now new_id in
    let! o := ObjectId_new inserted_id in
    let! doc := find_one "facility" {["_id" := VOid o]} in
    ret (serialize_doc doc).

Definition get_facility_by_code (code : string) : M (option rdict) :=
  let! _ := require_db in
  let! doc := find_one "facility" {["code" := VStr code]} in
  if falsy_doc doc then raise (HTTPException 404 "Facility not found")
  else ret (serialize_doc doc).

Definition create_staff (payload : Staff.t) (now : Z) (new_id : oid)
    : M (option rdict) :=
  let! _ := require_db in
  let! inserted_id := create_document "staff" (Staff.model_dump payload) now new_id in
  let! o := ObjectId_new inserted_id in
  let! doc := find_one "staff" {["_id" := VOid o]} in
  ret (serialize_doc doc).

Definition list_staff : M (list (option rdict)) :=
  let! _ := require_db in
  let! docs := get_documents "staff" in
  ret (map (fun d => serialize_doc (Some d)) docs).

(** *** Feedback *)

Section Handlers.

(** pydantic's check of an [HttpUrl] field. *)
Variable is_http_url : string -> bool.

(** [FeedbackSchema(...)] as [submit_feedback] calls it: the fields it
    passes, the defaults for the others, and the validation of [rating]
    and [photo_url]. *)
Definition FeedbackSchema (facility_code : string) (rating : Z)
    (comment photo_url : option string) (status : string)
    (user_lat user_lng : option Z) : M Feedback.t :=
  let errors :=
    ((if (1 <=? rating) && (rating <=? 5) then [] else ["rating"]) ++
     (if from_option is_http_url true photo_url then [] else ["photo_url"]))%list in
  match errors with
  | [] =>
      ret {| Feedback.facility_code := facility_code;
             Feedback.rating := rating;
             Feedback.comment := comment;
             Feedback.photo_url := photo_url;
             Feedback.status := status;
             Feedback.assigned_to := None;
             Feedback.before_photo_url := None;
             Feedback.after_photo_url := None;
             Feedback.user_lat := user_lat;
             Feedback.user_lng := user_lng;
             Feedback.staff_start_lat := None;
             Feedback.staff_start_lng := None;
             Feedback.staff_complete_lat := None;
             Feedback.staff_complete_lng := None;
             Feedback.started_at := None;
             Feedback.resolved_at := None |}
  | _ => raise (ValidationError errors)
  end.

(** [submit_feedback]; [now] is the clock reading of [create_document] and
    [new_id] the identifier its insertion generates. *)
Definition submit_feedback (payload : FeedbackCreate.t) (now : Z) (new_id : oid)
    : M (option rdict) :=
  let! _ := require_db in
  let! facility := find_one "facility"
                     {["code" := VStr (FeedbackCreate.facility_code payload)]} in
  if falsy_doc facility
  then raise (HTTPException 404 "Facility not found for given code")
  else
    let! feedback := FeedbackSchema
                       (FeedbackCreate.facility_code payload)
                       (FeedbackCreate.rating payload)
                       (FeedbackCreate.comment payload)
                       (FeedbackCreate.photo_url payload)
                       "open"
                       (FeedbackCreate.user_lat payload)
                       (FeedbackCreate.user_lng payload) in
    let! inserted_id := create_document "feedback" (Feedback.model_dump feedback)
                          now new_id in
    let! o := ObjectId_new inserted_id in
    let! doc := find_one "feedback" {["_id" := VOid o]} in
    ret (serialize_doc doc).

(** [POST /api/feedback]: the framework validates the body against
    [FeedbackCreate] and calls the handler only when it passes. *)
Definition post_api_feedback (body : FeedbackCreate.t) (now : Z) (new_id : oid)
    : M (option rdict) :=
  if FeedbackCreate.valid body then submit_feedback body now new_id
  else raise (RequestValidationError ["rating"]).

End Handlers.

(** Truth value of an [Optional[str]] and of an [Optional[int]]. *)
Definition truthy_str (o : option string) : bool :=
  match o with
  | Some s => negb (String.eqb s "")
  | None => false
  end.

Definition truthy_int (o : option Z) : bool :=
  match o with
  | Some n => negb (n =? 0)
  | None => false
  end.

(** [if v: query[k] = v] *)
Definition add_filter (k : string) (v : option string) (query : dict) : dict :=
  if truthy_str v then <[k := opt VStr v]> query else query.

Definition list_feedback (status facility_code assigned_to : option string)
    (limit : option Z) : M (list (option rdict)) :=
  let! _ := require_db in
  let query := ∅ in
  let query := add_filter "status" status query in
  let query := add_filter "facility_code" facility_code query in
  let query := add_filter "assigned_to" assigned_to query in
  let! c := collection "feedback" in
  let docs := sort_desc "created_at" (find query c) in
  let docs := if truthy_int limit then cursor_limit (default 0 limit) docs else docs in
  ret (map (fun d => serialize_doc (Some d)) docs).

(** [GET /api/feedback]: a query parameter that is absent takes the default
    of the signature, [None] for the filters and 100 for [limit]. *)
Definition get_api_feedback (status facility_code assigned_to : option string)
    (limit : option Z) : M (list (option rdict)) :=
  list_feedback status facility_code assigned_to (Some (default 100 limit)).

(** [assign_feedback]; [t_updated] and [t_started] are the two clock
    readings, in the order the dict display takes them. *)
Definition assign_updates (payload : AssignPayload.t) (t_updated t_started : Z) : dict :=
  list_to_map [ ("assigned_to", VStr (AssignPayload.staff_id payload));
                ("status", VStr "in_progress");
                ("updated_at", VDate t_updated);
                ("started_at", VDate t_started) ].

Definition assign_feedback (feedback_id : string) (payload : AssignPayload.t)
    (t_updated t_started : Z) : M (option rdict) :=
  let! _ := require_db in
  let! o := PyObjectId_validate feedback_id in
  let! matched_count :=
    update_one "feedback" {["_id" := VOid o]}
      (assign_updates payload t_updated t_started) in
  if (matched_count =? 0)%nat then raise (HTTPException 404 "Feedback not found")
  else
    let! o' := PyObjectId_validate feedback_id in
    let! doc := find_one "feedback" {["_id" := VOid o']} in
    ret (serialize_doc doc).

Definition start_updates (payload : StartPayload.t) (t_updated t_started : Z) : dict :=
  let updates := drop_None (StartPayload.model_dump payload) in
  let updates := <["status" := VStr "in_progress"]> updates in
  let updates := <["updated_at" := VDate t_updated]> updates in
  setdefault "started_at" (VDate t_started) updates.

Definition start_task (feedback_id : string) (payload : StartPayload.t)
    (t_updated t_started : Z) : M (option rdict) :=
  let! _ := require_db in
  let updates := start_updates payload t_updated t_started in
  let! o := PyObjectId_validate feedback_id in
  let! matched_count := update_one "feedback" {["_id" := VOid o]} updates in
  if (matched_count =? 0)%nat then raise (HTTPException 404 "Feedback not found")
  else
    let! o' := PyObjectId_validate feedback_id in
    let! doc := find_one "feedback" {["_id" := VOid o']} in
    ret (serialize_doc doc).

Definition resolve_updates (payload : ResolvePayload.t) (t_updated t_resolved : Z) : dict :=
  let updates := drop_None (ResolvePayload.model_dump payload) in
  let updates := <["status" := VStr "resolved"]> updates in
  let updates := <["updated_at" := VDate t_updated]> updates in
  <["resolved_at" := VDate t_resolved]> updates.

Definition resolve_task (feedback_id : string) (payload : ResolvePayload.t)
    (t_updated t_resolved : Z) : M (option rdict) :=
  let! _ := require_db in
  let updates := resolve_updates payload t_updated t_resolved in
  let! o := PyObjectId_validate feedback_id in
  let! matched_count := update_one "feedback" {["_id" := VOid o]} updates in
  if (matched_count =? 0)%nat then raise (HTTPException 404 "Feedback not found")
  else
    let! o' := PyObjectId_validate feedback_id in
    let! doc := find_one "feedback" {["_id" := VOid o']} in
    ret (serialize_doc doc).

(** *** The statistics endpoint *)

(** [{"$match": {"status": "resolved", "assigned_to": {"$ne": None}}}]:
    [$ne: None] rejects a missing field as well as a null one. *)
Definition leaderboard_match (d : document) : Prop :=
  as_dict d !! "status" = Some (VStr "resolved") /\
  match as_dict d !! "assigned_to" with
  | Some v => v <> VNone
  | None => False
  end.

Global Instance leaderboard_match_dec d : Decision (leaderboard_match d).
Proof. unfold leaderboard_match; destruct (as_dict d !! "assigned_to"); apply _. Defined.

(** [{"$group": {"_id": "$assigned_to", "resolved_count": {"$sum": 1}}}]:
    one entry per distinct key with the number of its documents; groups come
    out in the order of their first document. *)
Fixpoint bump (k : value) (groups : list (value * nat)) : list (value * nat) :=
  match groups with
  | [] => [(k, 1%nat)]
  | (k', n) :: groups' =>
      if decide (k = k') then (k', S n) :: groups' else (k', n) :: bump k groups'
  end.

Definition group_count (keys : list value) : list (value * nat) :=
  foldl (fun groups k => bump k groups) [] keys.

(** [{"$sort": {"resolved_count": -1}}] *)
Definition more_resolved : relation (value * nat) :=
  fun a b => (b.2 <= a.2)%nat.

Global Instance more_resolved_dec a b : Decision (more_resolved a b).
Proof. unfold more_resolved; apply _. Defined.

(** The whole pipeline, [{"$limit": 10}] included. *)
Definition aggregate_leaderboard (c : list document) : list (value * nat) :=
  let matched := filter leaderboard_match c in
  let groups := group_count (map (fun d => default VNone (as_dict d !! "assigned_to")) matched) in
  take 10 (merge_sort more_resolved groups).

(** [ObjectId.is_valid(v)] and [ObjectId(v)] on a group key. *)
Definition ObjectId_is_valid_value (v : value) : bool :=
  match v with
  | VStr s => ObjectId_is_valid s
  | VOid _ => true
  | _ => false
  end.

Definition ObjectId_of_value (v : value) : M oid :=
  match v with
  | VStr s => ObjectId_new s
  | VOid o => ret o
  | _ => raise (TypeError "id must be an instance of (bytes, str, ObjectId)")
  end.

(** The body of [for item in leaderboard]. *)
Definition attach_staff_name (item : value * nat) : M dict :=
  let! staff :=
    (if ObjectId_is_valid_value item.1
     then let! o := ObjectId_of_value item.1 in find_one "staff" {["_id" := VOid o]}
     else ret None) in
  ret (list_to_map
         [ ("resolved_count", VInt (Z.of_nat item.2));
           ("staff_id", item.1);
           ("staff_name",
             match staff with
             | Some s => if falsy_doc staff then VNone
                         else default VNone (as_dict s !! "name")
             | None => VNone
             end) ]).

Fixpoint mapM {A B} (f : A -> M B) (l : list A) : M (list B) :=
  match l with
  | [] => ret []
  | a :: l' =>
      let! b := f a in
      let! bs := mapM f l' in
      ret (b :: bs)
  end.

Record StatsResponse := {
  counts : dict;
  leaderboard : list dict;
}.

Definition stats : M StatsResponse :=
  let! _ := require_db in
  let! total := count_documents "feedback" ∅ in
  let! open_count := count_documents "feedback" {["status" := VStr "open"]} in
  let! in_progress := count_documents "feedback" {["status" := VStr "in_progress"]} in
  let! resolved := count_documents "feedback" {["status" := VStr "resolved"]} in
  let! c := collection "feedback" in
  let! items := mapM attach_staff_name (aggregate_leaderboard c) in
  ret {| counts := list_to_map [ ("total", VInt total);
                                 ("open", VInt open_count);
                                 ("in_progress", VInt in_progress);
                                 ("resolved", VInt resolved) ];
         leaderboard := items |}.


(** ** The requests of the service and their effect on the store *)

(** One constructor per endpoint that reads or writes a collection, with the
    clock readings and generated identifiers it consumes.  (The two remaining
    endpoints, the greeting and the diagnostic page, use no collection.) *)

Inductive request :=
| CreateFacility (payload : Facility.t) (now : Z) (new_id : oid)
| GetFacilityByCode (code : string)
| CreateStaff (payload : Staff.t) (now : Z) (new_id : oid)
| ListStaff
| SubmitFeedback (body : FeedbackCreate.t) (now : Z) (new_id : oid)
| ListFeedback (status facility_code assigned_to : option string) (limit : option Z)
| AssignFeedback (feedback_id : string) (payload : AssignPayload.t) (t_updated t_started : Z)
| StartTask (feedback_id : string) (payload : StartPayload.t) (t_updated t_started : Z)
| ResolveTask (feedback_id : string) (payload : ResolvePayload.t) (t_updated t_resolved : Z)
| Stats.

(** The world a request leaves behind. *)
Definition step (is_http_url : string -> bool) (r : request) (w : World) : World :=
  match r with
  | CreateFacility p now new_id => (create_facility p now new_id w).2
  | GetFacilityByCode code => (get_facility_by_code code w).2
  | CreateStaff p now new_id => (create_staff p now new_id w).2
  | ListStaff => (list_staff w).2
  | SubmitFeedback b now new_id => (post_api_feedback is_http_url b now new_id w).2
  | ListFeedback s f a l => (get_api_feedback s f a l w).2
  | AssignFeedback i p t1 t2 => (assign_feedback i p t1 t2 w).2
  | StartTask i p t1 t2 => (start_task i p t1 t2 w).2
  | ResolveTask i p t1 t2 => (resolve_task i p t1 t2 w).2
  | Stats => (stats w).2
  end.

(** The status a request writes to the feedback record [o], if any. *)
Definition status_written (r : request) (o : oid) : option string :=
  match r with
  | AssignFeedback i _ _ _ | StartTask i _ _ _ =>
      if decide (ObjectId i = Some o) then Some "in_progress" else None
  | ResolveTask i _ _ _ =>
      if decide (ObjectId i = Some o) then Some "resolved" else None
  | _ => None
  end.

(** ** Observing the store *)

Definition collection_of (name : string) (w : World) : list document :=
  match w with
  | Some d => default [] (d !! name)
  | None => []
  end.

(** The feedback record with identifier [o], and one of its fields. *)
Definition record_of (w : World) (o : oid) : option document :=
  find_one_in {["_id" := VOid o]} (collection_of "feedback" w).

Definition field_of (w : World) (o : oid) (k : string) : option value :=
  match record_of w o with
  | Some d => fields d !! k
  | None => None
  end.

(** What the three PATCH handlers have in common, as one function of the
    [$set] document: the store check, the identifier check, the update of the
    first record with that identifier, and the record read back. *)
Definition patch_record (upd : dict) (feedback_id : string) (w : World)
    : outcome (option rdict) * World :=
  match w with
  | None => (Raise (HTTPException 500 "Database not configured"), None)
  | Some db =>
      match ObjectId feedback_id with
      | None => (Raise (ValueError "Invalid ObjectId"), w)
      | Some o =>
          match record_of w o with
          | None => (Raise (HTTPException 404 "Feedback not found"), w)
          | Some d =>
              (Return (serialize_doc (Some (apply_set upd d))),
               Some (<["feedback" :=
                        (update_one_in {["_id" := VOid o]} upd
                           (collection_of "feedback" w)).2]> db))
          end
      end
  end.

(** A field after a partial update: the value given in the call when there
    is one, the stored value otherwise. *)
Definition provided {A} (f : A -> value) (given : option A) (old : option value)
    : option value :=
  match given with
  | Some a => Some (f a)
  | None => old
  end.

(** An identifier as the driver generates and prints it. *)
Definition canonical (o : oid) : Prop := ObjectId o = Some o.

(** The staff record that a leaderboard key refers to: the key has to be a
    valid ObjectId and a record with it has to exist. *)
Definition staff_of (w : World) (k : value) : option document :=
  match k with
  | VStr s =>
      match ObjectId s with
      | Some o => find_one_in {["_id" := VOid o]} (collection_of "staff" w)
      | None => None
      end
  | VOid o => find_one_in {["_id" := VOid o]} (collection_of "staff" w)
  | _ => None
  end.

(** What one request may do to the feedback record [o]: a record that exists
    stays, with the status the request writes to it or else its old one; a
    record that appears was submitted by this request and is open, not
    started, not resolved; the identifiers of the collection are extended,
    never shortened. *)
Definition transition (r : request) (w w' : World) (o : oid) : Prop :=
  (∀ d, record_of w o = Some d →
        ∃ d', record_of w' o = Some d' ∧
              fields d' !! "status"
              = match status_written r o with
                | Some s => Some (VStr s)
                | None => fields d !! "status"
                end) ∧
  (∀ d', record_of w o = None → record_of w' o = Some d' →
         (∃ body now, r = SubmitFeedback body now o) ∧
         fields d' !! "status" = Some (VStr "open") ∧
         fields d' !! "started_at" = Some VNone ∧
         fields d' !! "resolved_at" = Some VNone) ∧
  map _id (collection_of "feedback" w) `prefix_of` map _id (collection_of "feedback" w').

(** The leaderboard item of a group, with the staff name attached. *)
Definition leaderboard_entry (w : World) (item : value * nat) : dict :=
  list_to_map
    [ ("resolved_count", VInt (Z.of_nat item.2));
      ("staff_id", item.1);
      ("staff_name",
        match staff_of w item.1 with
        | Some s => default VNone (as_dict s !! "name")
        | None => VNone
        end) ].

(** One filter of List on a record: no constraint when the filter is absent
    or the empty string, equality with the field otherwise. *)
Definition passes (k : string) (v : option string) (d : document) : Prop :=
  match v with
  | Some s => if decide (s = "") then True else fields d !! k = Some (VStr s)
  | None => True
  end.

Global Instance passes_dec k v d : Decision (passes k v d).
Proof. unfold passes; destruct v; [case_decide|]; apply _. Defined.

Definition wanted (status facility_code assigned_to : option string) (d : document) : Prop :=
  passes "status" status d ∧
  passes "facility_code" facility_code d ∧
  passes "assigned_to" assigned_to d.

Global Instance wanted_dec s f a d : Decision (wanted s f a d).
Proof. unfold wanted; apply _. Defined.

(** The number of resolved feedback records assigned to [k]. *)
Definition resolved_by (c : list document) (k : value) : nat :=
  length (filter (fun d => fields d !! "status" = Some (VStr "resolved") ∧
                           fields d !! "assigned_to" = Some k) c).



(** ** Outcomes and invariants of the store *)

(** The exception a computation ends with, if it does. *)
Definition error_of {A} (x : outcome A * World) : option exn :=
  match x.1 with
  | Raise e => Some e
  | Return _ => None
  end.

(** The exception a request ends with, if it does. *)
Definition request_error (is_http_url : string -> bool) (r : request) (w : World)
    : option exn :=
  match r with
  | CreateFacility p now new_id => error_of (create_facility p now new_id w)
  | GetFacilityByCode code => error_of (get_facility_by_code code w)
  | CreateStaff p now new_id => error_of (create_staff p now new_id w)
  | ListStaff => error_of (list_staff w)
  | SubmitFeedback b now new_id => error_of (post_api_feedback is_http_url b now new_id w)
  | ListFeedback s f a l => error_of (get_api_feedback s f a l w)
  | AssignFeedback i p t1 t2 => error_of (assign_feedback i p t1 t2 w)
  | StartTask i p t1 t2 => error_of (start_task i p t1 t2 w)
  | ResolveTask i p t1 t2 => error_of (resolve_task i p t1 t2 w)
  | Stats => error_of (stats w)
  end.

(** The identifier that the insertion of a request generates. *)
Definition generated_id (r : request) : option oid :=
  match r with
  | CreateFacility _ _ new_id | CreateStaff _ _ new_id | SubmitFeedback _ _ new_id =>
      Some new_id
  | _ => None
  end.

(** The requests that only read. *)
Definition reads_only (r : request) : bool :=
  match r with
  | GetFacilityByCode _ | ListStaff | ListFeedback _ _ _ _ | Stats => true
  | _ => false
  end.

(** The codes of the registered facilities. *)
Definition facility_codes (w : World) : list value :=
  omap (fun d => fields d !! "code") (collection_of "facility" w).

(** A status of the lifecycle. *)
Definition valid_status (d : document) : Prop :=
  fields d !! "status" = Some (VStr "open") \/
  fields d !! "status" = Some (VStr "in_progress") \/
  fields d !! "status" = Some (VStr "resolved").

(** The number of records with a status. *)
Definition with_status (s : string) (c : list document) : nat :=
  length (filter (fun d => fields d !! "status" = Some (VStr s)) c).

(** ** A small store to run the handlers on *)

Module Sample.

Definition id1 : oid := "000000000000000000000001".
Definition id2 : oid := "000000000000000000000002".
Definition id3 : oid := "000000000000000000000003".
Definition id4 : oid := "000000000000000000000004".
Definition staffA : oid := "0000000000000000000000a1".
Definition staffB : oid := "0000000000000000000000b2".

Definition feedback_doc (o : oid) (status : string) (assigned : value)
    (created : Z) (started resolved : value) : document :=
  Document o
    (list_to_map
       [ ("facility_code", VStr "TB-A"); ("rating", VInt 2);
         ("status", VStr status); ("assigned_to", assigned);
         ("started_at", started); ("resolved_at", resolved);
         ("created_at", VDate created) ]).

Definition db0 : database :=
  list_to_map
    [ ("facility", [Document "0000000000000000000000f1"
                      (list_to_map [("code", VStr "TB-A"); ("name", VStr "Toilet Block A")])]);
      ("staff", [Document staffA (list_to_map [("name", VStr "Asha")])]);
      ("feedback",
        [ feedback_doc id1 "open" VNone 10 VNone VNone;
          feedback_doc id2 "in_progress" (VStr staffA) 20 (VDate 25) VNone;
          feedback_doc id3 "resolved" (VStr staffB) 30 (VDate 35) (VDate 40) ]) ].

Definition w0 : World := Some db0.


Definition accept_all : string -> bool := fun _ => true.

(** A store for the leaderboard: five records resolved by [staffB], three by
    [staffA], one by a key that is no ObjectId, one resolved with no
    assignee, and one of [staffA] still in progress. *)
Definition board_db : database :=
  list_to_map
    [ ("staff", [Document staffA (list_to_map [("name", VStr "Asha")])]);
      ("feedback",
        [ feedback_doc "0000000000000000000000c1" "resolved" (VStr staffA) 1 VNone VNone;
          feedback_doc "0000000000000000000000c2" "resolved" (VStr staffB) 2 VNone VNone;
          feedback_doc "0000000000000000000000c3" "resolved" VNone 3 VNone VNone;
          feedback_doc "0000000000000000000000c4" "resolved" (VStr staffB) 4 VNone VNone;
          feedback_doc "0000000000000000000000c5" "resolved" (VStr "temp") 5 VNone VNone;
          feedback_doc "0000000000000000000000c6" "resolved" (VStr staffA) 6 VNone VNone;
          feedback_doc "0000000000000000000000c7" "in_progress" (VStr staffA) 7 VNone VNone;
          feedback_doc "0000000000000000000000c8" "resolved" (VStr staffB) 8 VNone VNone;
          feedback_doc "0000000000000000000000c9" "resolved" (VStr staffB) 9 VNone VNone;
          feedback_doc "0000000000000000000000ca" "resolved" (VStr staffA) 10 VNone VNone;
          feedback_doc "0000000000000000000000cb" "resolved" (VStr staffB) 11 VNone VNone ]) ].

End Sample.

(** * Properties *)

(** ** Documents and queries *)

Lemma as_dict_lookup_id d : as_dict d !! "_id" = Some (VOid (_id d)).
Proof. unfold as_dict. by rewrite lookup_insert_eq. Qed.

Lemma as_dict_lookup_ne d k : k ≠ "_id" → as_dict d !! k = fields d !! k.
Proof. intros Hk. unfold as_dict. by rewrite lookup_insert_ne. Qed.

Lemma as_dict_nonempty d : as_dict d ≠ ∅.
Proof.
  intros He. pose proof (as_dict_lookup_id d) as Hid.
  rewrite He in Hid. by rewrite lookup_empty in Hid.
Qed.

Lemma falsy_doc_Some d : falsy_doc (Some d) = false.
Proof. simpl. apply bool_decide_eq_false, as_dict_nonempty. Qed.

Lemma matches_empty d : matches ∅ d.
Proof. apply map_Forall_empty. Qed.

Lemma matches_singleton k v d :
  v ≠ VNone → matches {[k := v]} d ↔ as_dict d !! k = Some v.
Proof.
  intros Hv. unfold matches. rewrite map_Forall_singleton.
  unfold field_matches. by destruct v.
Qed.

Lemma matches_id o d : matches {["_id" := VOid o]} d ↔ _id d = o.
Proof.
  rewrite matches_singleton by done. rewrite as_dict_lookup_id.
  split; congruence.
Qed.

Lemma matches_insert k v q d :
  v ≠ VNone → q !! k = None →
  matches (<[k := v]> q) d ↔ as_dict d !! k = Some v ∧ matches q d.
Proof.
  intros Hv Hk. unfold matches. rewrite map_Forall_insert by done.
  unfold field_matches at 1. by destruct v.
Qed.

Lemma find_one_in_cons q x c :
  find_one_in q (x :: c) = if decide (matches q x) then Some x else find_one_in q c.
Proof. unfold find_one_in, find. rewrite filter_cons. by case_decide. Qed.

Lemma find_one_in_Some q c d : find_one_in q c = Some d → d ∈ c ∧ matches q d.
Proof.
  unfold find_one_in, find. intros Hh.
  apply head_Some_elem_of in Hh. by apply list_elem_of_filter in Hh as [? ?].
Qed.

Lemma find_one_in_None q c : find_one_in q c = None ↔ ∀ d, d ∈ c → ¬ matches q d.
Proof.
  unfold find_one_in, find. rewrite head_None. split.
  - intros He d Hd Hm.
    assert (d ∈ filter (matches q) c) as Hin by (apply list_elem_of_filter; done).
    rewrite He in Hin. by apply not_elem_of_nil in Hin.
  - intros Hn. destruct (filter (matches q) c) as [|x l] eqn:E; [done|].
    assert (x ∈ filter (matches q) c) as Hin by (rewrite E; left).
    apply list_elem_of_filter in Hin as [Hm Hx]. by destruct (Hn x).
Qed.

(** ** [update_one] *)

Lemma update_one_in_None q u c :
  find_one_in q c = None → update_one_in q u c = (0%nat, c).
Proof.
  induction c as [|x c IH]; [done|].
  rewrite find_one_in_cons. simpl. case_decide; [done|].
  intros Hn. by rewrite (IH Hn).
Qed.

Lemma update_one_in_count q u c :
  (update_one_in q u c).1 = match find_one_in q c with Some _ => 1%nat | None => 0%nat end.
Proof.
  induction c as [|x c IH]; [done|].
  rewrite find_one_in_cons. simpl. case_decide; [done|].
  destruct (update_one_in q u c) as [n c']. simpl in *. done.
Qed.

Lemma update_one_in_ids q u c : map _id (update_one_in q u c).2 = map _id c.
Proof.
  induction c as [|x c IH]; [done|].
  simpl. case_decide; [done|].
  destruct (update_one_in q u c) as [n c']. simpl in *. by rewrite IH.
Qed.

Lemma update_one_in_length q u c : length (update_one_in q u c).2 = length c.
Proof. by rewrite <- (length_map _id), update_one_in_ids, length_map. Qed.

(** Reading a record back by identifier after an update by identifier. *)
Lemma update_one_in_lookup o o' u c :
  find_one_in {["_id" := VOid o']} (update_one_in {["_id" := VOid o]} u c).2
  = if decide (o' = o) then apply_set u <$> find_one_in {["_id" := VOid o]} c
    else find_one_in {["_id" := VOid o']} c.
Proof.
  induction c as [|x c IH].
  - simpl. by case_decide.
  - simpl. rewrite !find_one_in_cons.
    destruct (decide (matches {["_id" := VOid o]} x)) as [Hm|Hm].
    + simpl. rewrite find_one_in_cons.
      apply matches_id in Hm.
      destruct (decide (o' = o)) as [->|Hne].
      * rewrite decide_True; [done|]. by apply matches_id.
      * rewrite !decide_False; [done| |]; rewrite matches_id; simpl; congruence.
    + destruct (update_one_in {["_id" := VOid o]} u c) as [n c'] eqn:E.
      simpl in *. rewrite find_one_in_cons.
      destruct (decide (matches {["_id" := VOid o']} x)) as [Hm'|Hm'].
      * apply matches_id in Hm'. rewrite matches_id in Hm.
        rewrite decide_False by congruence. done.
      * apply IH.
Qed.

(** ** The PATCH handlers as [patch_record] *)

Lemma patch_shape upd feedback_id w :
  (let! _ := require_db in
   let! o := PyObjectId_validate feedback_id in
   let! matched_count := update_one "feedback" {["_id" := VOid o]} upd in
   if (matched_count =? 0)%nat then raise (HTTPException 404 "Feedback not found")
   else
     let! o' := PyObjectId_validate feedback_id in
     let! doc := find_one "feedback" {["_id" := VOid o']} in
     ret (serialize_doc doc)) w
  = patch_record upd feedback_id w.
Proof.
  destruct w as [db|]; [|done].
  unfold patch_record, bind, require_db, PyObjectId_validate.
  destruct (ObjectId feedback_id) as [o|] eqn:Ho; [|done].
  unfold ret, update_one, bind, collection, record_of, collection_of.
  set (c := default [] (db !! "feedback")).
  pose proof (update_one_in_count {["_id" := VOid o]} upd c) as Hn.
  pose proof (update_one_in_lookup o o upd c) as Hl.
  rewrite decide_True in Hl by done.
  destruct (find_one_in {["_id" := VOid o]} c) as [d|] eqn:Hf.
  - destruct (update_one_in {["_id" := VOid o]} upd c) as [n c'] eqn:Hu.
    simpl in Hn, Hl. subst n. simpl.
    unfold find_one, bind, collection, ret. simpl.
    rewrite lookup_insert_eq. simpl. by rewrite Hl.
  - by rewrite (update_one_in_None _ _ _ Hf).
Qed.

Lemma assign_feedback_patch i p t1 t2 w :
  assign_feedback i p t1 t2 w = patch_record (assign_updates p t1 t2) i w.
Proof. apply patch_shape. Qed.

Lemma start_task_patch i p t1 t2 w :
  start_task i p t1 t2 w = patch_record (start_updates p t1 t2) i w.
Proof. apply patch_shape. Qed.

Lemma resolve_task_patch i p t1 t2 w :
  resolve_task i p t1 t2 w = patch_record (resolve_updates p t1 t2) i w.
Proof. apply patch_shape. Qed.

(** The store after [patch_record]: the record with the identifier is
    updated, every other record is as before, none is lost. *)
Lemma patch_record_record_of upd i w o' :
  record_of (patch_record upd i w).2 o'
  = if decide (ObjectId i = Some o') then apply_set upd <$> record_of w o'
    else record_of w o'.
Proof.
  destruct w as [db|]; [|simpl; by case_decide].
  unfold patch_record.
  destruct (ObjectId i) as [o|] eqn:Ho; simpl.
  - destruct (record_of (Some db) o) as [d|] eqn:Hr; simpl.
    + unfold record_of at 1. simpl. rewrite lookup_insert_eq. simpl.
      rewrite update_one_in_lookup.
      destruct (decide (o' = o)) as [->|Hne].
      * by rewrite decide_True.
      * rewrite decide_False by congruence. done.
    + case_decide as Hd; [|done]. injection Hd as ->. by rewrite Hr.
  - done.
Qed.

Lemma patch_record_ids upd i w :
  map _id (collection_of "feedback" (patch_record upd i w).2)
  = map _id (collection_of "feedback" w).
Proof.
  destruct w as [db|]; [|done].
  unfold patch_record.
  destruct (ObjectId i) as [o|]; [|done].
  destruct (record_of (Some db) o); [|done].
  simpl. rewrite lookup_insert_eq. simpl. apply update_one_in_ids.
Qed.

Lemma patch_record_other_collections upd i w name :
  name ≠ "feedback" →
  collection_of name (patch_record upd i w).2 = collection_of name w.
Proof.
  intros Hn. destruct w as [db|]; [|done].
  unfold patch_record.
  destruct (ObjectId i) as [o|]; [|done].
  destruct (record_of (Some db) o); [|done].
  simpl. by rewrite lookup_insert_ne.
Qed.

Lemma apply_set_lookup upd d k :
  fields (apply_set upd d) !! k
  = match upd !! k with Some v => Some v | None => fields d !! k end.
Proof.
  simpl. destruct (upd !! k) as [v|] eqn:E.
  - by apply lookup_union_Some_l.
  - by apply lookup_union_r.
Qed.

Lemma patch_record_spec upd db i o :
  ObjectId i = Some o →
  let r := patch_record upd i (Some db) in
  (∀ d, record_of (Some db) o = Some d →
        r.1 = Return (serialize_doc (Some (apply_set upd d))) ∧
        record_of r.2 o = Some (apply_set upd d)) ∧
  ((∃ e, r.1 = Raise e ∧ NotFound e) ↔ record_of (Some db) o = None) ∧
  (record_of (Some db) o = None → r.2 = Some db).
Proof.
  intros Ho r.
  pose proof (patch_record_record_of upd i (Some db) o) as Hl.
  rewrite decide_True in Hl by done. fold r in Hl.
  subst r. unfold patch_record in *. rewrite Ho in *.
  destruct (record_of (Some db) o) as [d|] eqn:Hr; simpl in *.
  - split; [|split].
    + intros d' [= <-]. done.
    + split; [intros (e & He & _); discriminate|discriminate].
    + discriminate.
  - split; [|split]; [discriminate| |done].
    split; [done|]. intros _. eexists. split; [done|]. by eexists.
Qed.

Lemma patch_record_malformed upd db i :
  ObjectId i = None →
  patch_record upd i (Some db) = (Raise (ValueError "Invalid ObjectId"), Some db).
Proof. intros Ho. unfold patch_record. by rewrite Ho. Qed.

(** ** The [$set] documents of the three handlers *)

Lemma drop_None_lookup (d : dict) k :
  drop_None d !! k = match d !! k with Some VNone => None | o => o end.
Proof.
  unfold drop_None. destruct (d !! k) as [v|] eqn:E.
  - destruct (decide (v = VNone)) as [->|Hv].
    + apply map_lookup_filter_None_2. right. intros x Hx.
      rewrite E in Hx. injection Hx as <-. simpl. done.
    + transitivity (Some v); [|by destruct v].
      apply map_lookup_filter_Some_2; [done|]. simpl. by destruct v.
  - apply map_lookup_filter_None_2. by left.
Qed.

Lemma setdefault_lookup k v (d : dict) k' :
  setdefault k v d !! k'
  = if decide (k' = k) then Some (default v (d !! k)) else d !! k'.
Proof.
  unfold setdefault. destruct (d !! k) as [x|] eqn:E.
  - case_decide; [subst; by rewrite E|done].
  - rewrite lookup_insert. case_decide; subst.
    + by rewrite decide_True.
    + by rewrite decide_False.
Qed.

Ltac other_keys H :=
  rewrite !not_elem_of_cons in H; destruct_and!.

Ltac other_keys_goal :=
  rewrite !not_elem_of_cons; split_and!; try done; apply not_elem_of_nil.

Lemma assign_updates_lookup p t1 t2 :
  assign_updates p t1 t2 !! "assigned_to" = Some (VStr (AssignPayload.staff_id p)) ∧
  assign_updates p t1 t2 !! "status" = Some (VStr "in_progress") ∧
  assign_updates p t1 t2 !! "updated_at" = Some (VDate t1) ∧
  assign_updates p t1 t2 !! "started_at" = Some (VDate t2) ∧
  (∀ k, k ∉ ["assigned_to"; "status"; "updated_at"; "started_at"] →
        assign_updates p t1 t2 !! k = None).
Proof.
  unfold assign_updates. simpl. split_and!.
  - by rewrite lookup_insert_eq.
  - rewrite lookup_insert_ne by done. by rewrite lookup_insert_eq.
  - rewrite !lookup_insert_ne by done. by rewrite lookup_insert_eq.
  - rewrite !lookup_insert_ne by done. by rewrite lookup_insert_eq.
  - intros k Hk. other_keys Hk. by rewrite !lookup_insert_ne by done.
Qed.

Lemma start_updates_lookup p t1 t2 :
  start_updates p t1 t2 !! "status" = Some (VStr "in_progress") ∧
  start_updates p t1 t2 !! "updated_at" = Some (VDate t1) ∧
  start_updates p t1 t2 !! "started_at" = Some (VDate t2) ∧
  start_updates p t1 t2 !! "before_photo_url" = VStr <$> StartPayload.before_photo_url p ∧
  start_updates p t1 t2 !! "staff_start_lat" = VFloat <$> StartPayload.staff_start_lat p ∧
  start_updates p t1 t2 !! "staff_start_lng" = VFloat <$> StartPayload.staff_start_lng p ∧
  (∀ k, k ∉ ["status"; "updated_at"; "started_at"; "before_photo_url";
             "staff_start_lat"; "staff_start_lng"] →
        start_updates p t1 t2 !! k = None).
Proof.
  unfold start_updates.
  assert (∀ k, k ≠ "status" → k ≠ "updated_at" → k ≠ "started_at" →
     setdefault "started_at" (VDate t2)
       (<["updated_at" := VDate t1]>
          (<["status" := VStr "in_progress"]>
             (drop_None (StartPayload.model_dump p)))) !! k
     = match StartPayload.model_dump p !! k with Some VNone => None | o => o end) as Hk.
  { intros k ? ? ?. rewrite setdefault_lookup, decide_False by done.
    rewrite !lookup_insert_ne by done. apply drop_None_lookup. }
  split_and!.
  - rewrite setdefault_lookup, decide_False by done.
    rewrite lookup_insert_ne by done. by rewrite lookup_insert_eq.
  - rewrite setdefault_lookup, decide_False by done. by rewrite lookup_insert_eq.
  - rewrite setdefault_lookup, decide_True by done.
    rewrite !lookup_insert_ne by done. rewrite drop_None_lookup.
    unfold StartPayload.model_dump. simpl. by rewrite !lookup_insert_ne by done.
  - rewrite Hk by done. unfold StartPayload.model_dump. simpl.
    rewrite lookup_insert_eq. by destruct (StartPayload.before_photo_url p).
  - rewrite Hk by done. unfold StartPayload.model_dump. simpl.
    rewrite lookup_insert_ne by done. rewrite lookup_insert_eq.
    by destruct (StartPayload.staff_start_lat p).
  - rewrite Hk by done. unfold StartPayload.model_dump. simpl.
    rewrite !lookup_insert_ne by done. rewrite lookup_insert_eq.
    by destruct (StartPayload.staff_start_lng p).
  - intros k Hn. other_keys Hn. rewrite Hk by done.
    unfold StartPayload.model_dump. simpl. by rewrite !lookup_insert_ne by done.
Qed.

Lemma resolve_updates_lookup p t1 t2 :
  resolve_updates p t1 t2 !! "status" = Some (VStr "resolved") ∧
  resolve_updates p t1 t2 !! "updated_at" = Some (VDate t1) ∧
  resolve_updates p t1 t2 !! "resolved_at" = Some (VDate t2) ∧
  resolve_updates p t1 t2 !! "after_photo_url" = VStr <$> ResolvePayload.after_photo_url p ∧
  resolve_updates p t1 t2 !! "staff_complete_lat" = VFloat <$> ResolvePayload.staff_complete_lat p ∧
  resolve_updates p t1 t2 !! "staff_complete_lng" = VFloat <$> ResolvePayload.staff_complete_lng p ∧
  (∀ k, k ∉ ["status"; "updated_at"; "resolved_at"; "after_photo_url";
             "staff_complete_lat"; "staff_complete_lng"] →
        resolve_updates p t1 t2 !! k = None).
Proof.
  unfold resolve_updates.
  assert (∀ k, k ≠ "status" → k ≠ "updated_at" → k ≠ "resolved_at" →
     <["resolved_at" := VDate t2]>
       (<["updated_at" := VDate t1]>
          (<["status" := VStr "resolved"]>
             (drop_None (ResolvePayload.model_dump p)))) !! k
     = match ResolvePayload.model_dump p !! k with Some VNone => None | o => o end) as Hk.
  { intros k ? ? ?. rewrite !lookup_insert_ne by done. apply drop_None_lookup. }
  split_and!.
  - rewrite !lookup_insert_ne by done. by rewrite lookup_insert_eq.
  - rewrite lookup_insert_ne by done. by rewrite lookup_insert_eq.
  - by rewrite lookup_insert_eq.
  - rewrite Hk by done. unfold ResolvePayload.model_dump. simpl.
    rewrite lookup_insert_eq. by destruct (ResolvePayload.after_photo_url p).
  - rewrite Hk by done. unfold ResolvePayload.model_dump. simpl.
    rewrite lookup_insert_ne by done. rewrite lookup_insert_eq.
    by destruct (ResolvePayload.staff_complete_lat p).
  - rewrite Hk by done. unfold ResolvePayload.model_dump. simpl.
    rewrite !lookup_insert_ne by done. rewrite lookup_insert_eq.
    by destruct (ResolvePayload.staff_complete_lng p).
  - intros k Hn. other_keys Hn. rewrite Hk by done.
    unfold ResolvePayload.model_dump. simpl. by rewrite !lookup_insert_ne by done.
Qed.

(** ** Resolve *)


(** ** Start *)

(** C3, as amended.  For a well-formed [feedback_id]: on an existing record
    [start_task] returns the stored record, on which the fields given in the
    call have their new value, the status is [in_progress] and [updated_at]
    is the clock reading of this call, and every field other than these and
    [started_at] is as before; it fails with NotFound when no record has the
    identifier, and then the store is unchanged. *)
Theorem start_task_spec db feedback_id o p t_updated t_started :
  ObjectId feedback_id = Some o →
  let w := Some db in
  let r := start_task feedback_id p t_updated t_started w in
  (∀ d, record_of w o = Some d →
     ∃ d', r.1 = Return (serialize_doc (Some d')) ∧
           record_of r.2 o = Some d' ∧
           fields d' !! "status" = Some (VStr "in_progress") ∧
           fields d' !! "updated_at" = Some (VDate t_updated) ∧
           fields d' !! "before_photo_url"
             = provided VStr (StartPayload.before_photo_url p)
                 (fields d !! "before_photo_url") ∧
           fields d' !! "staff_start_lat"
             = provided VFloat (StartPayload.staff_start_lat p)
                 (fields d !! "staff_start_lat") ∧
           fields d' !! "staff_start_lng"
             = provided VFloat (StartPayload.staff_start_lng p)
                 (fields d !! "staff_start_lng") ∧
           (∀ k, k ∉ ["status"; "updated_at"; "started_at"; "before_photo_url";
                      "staff_start_lat"; "staff_start_lng"] →
                 fields d' !! k = fields d !! k)) ∧
  (record_of w o = None →
     r.1 = Raise (HTTPException 404 "Feedback not found") ∧
     NotFound (HTTPException 404 "Feedback not found") ∧
     r.2 = w).
Proof.
  intros Ho w r. subst r w. rewrite start_task_patch.
  destruct (patch_record_spec (start_updates p t_updated t_started) db _ _ Ho)
    as (Hfound & Hnf & Hsame).
  split.
  - intros d Hd. destruct (Hfound d Hd) as [Hr Hl].
    destruct (start_updates_lookup p t_updated t_started)
      as (Hs & Hu & _ & Hp & Hlat & Hlng & Hk).
    exists (apply_set (start_updates p t_updated t_started) d).
    split_and!.
    + exact Hr.
    + exact Hl.
    + by rewrite apply_set_lookup, Hs.
    + by rewrite apply_set_lookup, Hu.
    + rewrite apply_set_lookup, Hp. by destruct (StartPayload.before_photo_url p).
    + rewrite apply_set_lookup, Hlat. by destruct (StartPayload.staff_start_lat p).
    + rewrite apply_set_lookup, Hlng. by destruct (StartPayload.staff_start_lng p).
    + intros k Hn. by rewrite apply_set_lookup, Hk.
  - intros Hn. split_and!; [|by eexists|by apply Hsame].
    unfold patch_record. by rewrite Ho, Hn.
Qed.

(** Start stamps [started_at] on every call: [setdefault] looks at the
    [$set] document it is building, in which [started_at] is never present,
    not at the stored record. *)
Lemma start_task_started_at db feedback_id o p t_updated t_started d :
  ObjectId feedback_id = Some o →
  record_of (Some db) o = Some d →
  field_of (start_task feedback_id p t_updated t_started (Some db)).2 o "started_at"
  = Some (VDate t_started).
Proof.
  intros Ho Hd. rewrite start_task_patch. unfold field_of.
  rewrite patch_record_record_of, decide_True, Hd by done. simpl.
  destruct (start_updates_lookup p t_updated t_started) as (_ & _ & Hst & _).
  by apply lookup_union_Some_l.
Qed.

(** Neither Assign nor Start touches [resolved_at]. *)
Lemma assign_feedback_keeps_resolved_at w feedback_id p t1 t2 o :
  field_of (assign_feedback feedback_id p t1 t2 w).2 o "resolved_at"
  = field_of w o "resolved_at".
Proof.
  rewrite assign_feedback_patch. unfold field_of.
  rewrite patch_record_record_of. case_decide; [|done].
  destruct (record_of w o) as [d|]; [|done]. simpl.
  destruct (assign_updates_lookup p t1 t2) as (_ & _ & _ & _ & Hk).
  apply lookup_union_r, Hk. other_keys_goal.
Qed.

(** ** Assign *)


(** ** The three handlers on the sample store *)



(** C3, counterexample to the claim as stated: a malformed identifier does
    not give NotFound, and Start on a record that has [started_at = 25]
    replaces it by the reading of the call. *)
Lemma start_task_counterexample :
  let p := StartPayload.Build None None None in
  let r := start_task "xyz" p 50 51 Sample.w0 in
  ("xyz" ∉ map _id (collection_of "feedback" Sample.w0)) ∧
  r.1 = Raise (ValueError "Invalid ObjectId") ∧
  ¬ (∃ e, r.1 = Raise e ∧ NotFound e) ∧
  field_of Sample.w0 Sample.id2 "started_at" = Some (VDate 25) ∧
  field_of (start_task Sample.id2 p 50 51 Sample.w0).2 Sample.id2 "started_at"
  = Some (VDate 51).
Proof.
  split_and!.
  - apply (bool_decide_unpack _). vm_compute. exact I.
  - vm_compute. reflexivity.
  - intros (e & He & detail & ->). vm_compute in He. discriminate.
  - vm_compute. reflexivity.
  - vm_compute. reflexivity.
Qed.

(** Start on the open record of the sample store, with a photo. *)
Lemma start_task_spec_witness :
  ObjectId Sample.id1 = Some Sample.id1 ∧
  ∃ d', record_of (start_task Sample.id1
                     (StartPayload.Build (Some "http://photos/1") None None)
                     50 51 Sample.w0).2 Sample.id1 = Some d' ∧
        fields d' !! "status" = Some (VStr "in_progress") ∧
        fields d' !! "before_photo_url" = Some (VStr "http://photos/1").
Proof.
  split; [vm_compute; reflexivity|].
  destruct (start_task_spec Sample.db0 Sample.id1 Sample.id1
              (StartPayload.Build (Some "http://photos/1") None None) 50 51 ltac:(vm_compute; reflexivity))
    as [H _].
  destruct (H (Sample.feedback_doc Sample.id1 "open" VNone 10 VNone VNone)
              ltac:(vm_compute; reflexivity))
    as (d' & _ & Hl & Hs & _ & Hp & _).
  exists d'. split_and!; assumption.
Defined.

(** C4, the code at the failing input: the record [id2] of the sample store
    was started at 25 and is not resolved; Start with no field, at the
    readings 50 and 51, leaves [resolved_at] alone but returns and stores
    [started_at = 51]. *)
Lemma start_task_overwrites_started_at :
  let r := start_task Sample.id2 (StartPayload.Build None None None) 50 51 Sample.w0 in
  field_of Sample.w0 Sample.id2 "started_at" = Some (VDate 25) ∧
  field_of r.2 Sample.id2 "started_at" = Some (VDate 51) ∧
  match r.1 with
  | Return (Some doc) => doc !! "started_at"
  | _ => None
  end = Some (RIso 51) ∧
  field_of r.2 Sample.id2 "resolved_at" = field_of Sample.w0 Sample.id2 "resolved_at".
Proof.
  split_and!.
  - vm_compute. reflexivity.
  - vm_compute. reflexivity.
  - vm_compute. reflexivity.
  - vm_compute. reflexivity.
Qed.



Lemma matches_field k v d :
  k ≠ "_id" → v ≠ VNone → matches {[k := v]} d ↔ fields d !! k = Some v.
Proof. intros Hk Hv. by rewrite matches_singleton, as_dict_lookup_ne. Qed.

Lemma find_one_in_None_field k v c :
  k ≠ "_id" → v ≠ VNone →
  (∀ d, d ∈ c → fields d !! k ≠ Some v) → find_one_in {[k := v]} c = None.
Proof.
  intros Hk Hv Hn. apply find_one_in_None. intros d Hd Hm.
  apply matches_field in Hm; [|done..]. by apply (Hn d).
Qed.

(** ** Submit *)

Section Submit.
Variable is_http_url : string → bool.

Lemma FeedbackSchema_cases fc rating comment photo status lat lng w :
  (∃ f, FeedbackSchema is_http_url fc rating comment photo status lat lng w = (Return f, w) ∧
        1 <= rating <= 5 ∧
        Feedback.model_dump f !! "status" = Some (VStr status) ∧
        Feedback.model_dump f !! "assigned_to" = Some VNone ∧
        Feedback.model_dump f !! "started_at" = Some VNone ∧
        Feedback.model_dump f !! "resolved_at" = Some VNone) ∨
  (∃ errs, FeedbackSchema is_http_url fc rating comment photo status lat lng w
           = (Raise (ValidationError errs), w) ∧
           ((rating < 1 ∨ 5 < rating) → "rating" ∈ errs)).
Proof.
  unfold FeedbackSchema.
  destruct ((1 <=? rating) && (rating <=? 5)) eqn:Hr.
  - apply andb_true_iff in Hr as [H1 H2]. apply Z.leb_le in H1, H2.
    destruct (from_option is_http_url true photo).
    + left. eexists. split; [reflexivity|]. split; [lia|]. 
      split_and!; reflexivity.
    + right. eexists. split; [reflexivity|]. lia.
  - right. apply andb_false_iff in Hr.
    destruct (from_option is_http_url true photo); eexists; (split; [reflexivity|]);
      intros _; simpl; left.
Qed.


Lemma submit_feedback_unconfigured p now new_id :
  submit_feedback is_http_url p now new_id None
  = (Raise (HTTPException 500 "Database not configured"), None).
Proof. reflexivity. Qed.

Lemma submit_feedback_no_facility p now new_id db :
  find_one_in {["code" := VStr (FeedbackCreate.facility_code p)]}
    (collection_of "facility" (Some db)) = None →
  submit_feedback is_http_url p now new_id (Some db)
  = (Raise (HTTPException 404 "Facility not found for given code"), Some db).
Proof.
  intros Hf. unfold submit_feedback, bind, require_db, find_one, collection, ret.
  simpl in *. by rewrite Hf.
Qed.

Lemma submit_feedback_effect p now new_id db :
  let w := Some db in
  let r := submit_feedback is_http_url p now new_id w in
  r.2 = w ∨
  ∃ data,
    r.2 = Some (<["feedback" :=
                   (collection_of "feedback" w ++ [Document new_id data])%list]> db) ∧
    (new_id ∉ map _id (collection_of "feedback" w)) ∧
    1 <= FeedbackCreate.rating p <= 5 ∧
    data !! "status" = Some (VStr "open") ∧
    data !! "assigned_to" = Some VNone ∧
    data !! "started_at" = Some VNone ∧
    data !! "resolved_at" = Some VNone ∧
    data !! "created_at" = Some (VDate now).
Proof.
  intros w r. subst r w.
  unfold submit_feedback, bind, require_db, find_one, collection, ret. simpl.
  destruct (find_one_in _ (default [] (db !! "facility"))) as [f|] eqn:Hf; [|by left].
  rewrite falsy_doc_Some.
  destruct (FeedbackSchema_cases
              (FeedbackCreate.facility_code p) (FeedbackCreate.rating p)
              (FeedbackCreate.comment p) (FeedbackCreate.photo_url p) "open"
              (FeedbackCreate.user_lat p) (FeedbackCreate.user_lng p) (Some db))
    as [(fb & -> & Hrt & Hs & Ha & Hst & Hre) | (errs & -> & _)]; [|by left].
  unfold create_document, insert_one, bind, collection, set_collection, raise, ret.
  simpl.
  destruct (decide (new_id ∈ map _id (default [] (db !! "feedback")))) as [Hin|Hin];
    [by left|].
  right. exists (<["created_at" := VDate now]> (Feedback.model_dump fb)).
  split_and!.
  - unfold ObjectId_new. destruct (ObjectId new_id); reflexivity.
  - exact Hin.
  - lia.
  - lia.
  - by rewrite lookup_insert_ne.
  - by rewrite lookup_insert_ne.
  - by rewrite lookup_insert_ne.
  - by rewrite lookup_insert_ne.
  - by rewrite lookup_insert_eq.
Qed.

Lemma submit_feedback_bad_rating p now new_id w :
  FeedbackCreate.rating p < 1 ∨ 5 < FeedbackCreate.rating p →
  let r := submit_feedback is_http_url p now new_id w in
  r.2 = w ∧
  (∃ e, r.1 = Raise e) ∧
  (∀ f, find_one_in {["code" := VStr (FeedbackCreate.facility_code p)]}
          (collection_of "facility" w) = Some f →
        ∃ errs, r.1 = Raise (ValidationError errs) ∧ "rating" ∈ errs).
Proof.
  intros Hr r. subst r. destruct w as [db|].
  2:{ split_and!; [done|by eexists|]. intros f Hf. discriminate. }
  unfold submit_feedback, bind, require_db, find_one, collection, ret. simpl.
  destruct (find_one_in _ (default [] (db !! "facility"))) as [f|] eqn:Hf.
  2:{ simpl. split_and!; [done|by eexists|]. intros f' Hf'. discriminate. }
  rewrite falsy_doc_Some.
  destruct (FeedbackSchema_cases
              (FeedbackCreate.facility_code p) (FeedbackCreate.rating p)
              (FeedbackCreate.comment p) (FeedbackCreate.photo_url p) "open"
              (FeedbackCreate.user_lat p) (FeedbackCreate.user_lng p) (Some db))
    as [(fb & -> & Hrt & _) | (errs & -> & He)]; [lia|].
  split_and!; [done|by eexists|]. intros _ _. exists errs. split; [done|]. by apply He.
Qed.

(** C6.  Whatever the rating outside 1..5, the request is refused with a
    validation error and the store is left as it was; the handler called on
    such a payload creates no record either, its own model validation
    refusing the rating once the facility is found. *)
Theorem submit_rejects_rating_out_of_range body now new_id w :
  FeedbackCreate.rating body < 1 ∨ 5 < FeedbackCreate.rating body →
  let r := post_api_feedback is_http_url body now new_id w in
  let r' := submit_feedback is_http_url body now new_id w in
  (∃ e, r.1 = Raise e ∧ IsValidationError e) ∧
  r.2 = w ∧
  collection_of "feedback" r.2 = collection_of "feedback" w ∧
  (∃ e, r'.1 = Raise e) ∧
  r'.2 = w ∧
  (∀ f, find_one_in {["code" := VStr (FeedbackCreate.facility_code body)]}
          (collection_of "facility" w) = Some f →
        ∃ e, r'.1 = Raise e ∧ IsValidationError e).
Proof.
  intros Hr r r'.
  destruct (submit_feedback_bad_rating body now new_id w Hr) as (Hw & He & Hv).
  assert (FeedbackCreate.valid body = false) as Hvalid.
  { unfold FeedbackCreate.valid. apply andb_false_iff.
    destruct Hr; [left|right]; apply Z.leb_gt; lia. }
  subst r r'. unfold post_api_feedback. rewrite Hvalid.
  split_and!.
  - eexists. split; [reflexivity|]. eexists. by left.
  - reflexivity.
  - reflexivity.
  - exact He.
  - exact Hw.
  - intros f Hf. destruct (Hv f Hf) as (errs & -> & _).
    eexists. split; [reflexivity|]. eexists. by right.
Qed.

(** C7.  When no facility has the given code, Submit fails with NotFound
    and the store, its feedback collection included, is what it was; this
    holds for the handler on any payload and for the request on a body that
    passes validation. *)
Theorem submit_unknown_facility body now new_id db :
  (∀ d, d ∈ collection_of "facility" (Some db) →
        fields d !! "code" ≠ Some (VStr (FeedbackCreate.facility_code body))) →
  let w := Some db in
  let r := submit_feedback is_http_url body now new_id w in
  r.1 = Raise (HTTPException 404 "Facility not found for given code") ∧
  NotFound (HTTPException 404 "Facility not found for given code") ∧
  r.2 = w ∧
  collection_of "feedback" r.2 = collection_of "feedback" w ∧
  (FeedbackCreate.valid body = true →
   post_api_feedback is_http_url body now new_id w = r).
Proof.
  intros Hn w r. subst r w.
  rewrite submit_feedback_no_facility.
  - split_and!; [reflexivity | by eexists | reflexivity | reflexivity |].
    intros Hv. unfold post_api_feedback. rewrite Hv.
    apply submit_feedback_no_facility.
    by apply find_one_in_None_field.
  - by apply find_one_in_None_field.
Qed.

End Submit.

(** A rating of 7 on the sample store. *)
Lemma submit_rejects_rating_out_of_range_witness :
  let body := FeedbackCreate.Build "TB-A" 7 None None None None in
  let r := post_api_feedback Sample.accept_all body 60 Sample.id4 Sample.w0 in
  (∃ e, r.1 = Raise e ∧ IsValidationError e) ∧ r.2 = Sample.w0.
Proof.
  intros body r.
  destruct (submit_rejects_rating_out_of_range Sample.accept_all body 60 Sample.id4
              Sample.w0 ltac:(right; simpl; lia)) as (He & Hw & _).
  split; assumption.
Defined.

(** A code that no facility of the sample store has. *)
Lemma submit_unknown_facility_witness :
  let body := FeedbackCreate.Build "nowhere" 3 None None None None in
  let r := submit_feedback Sample.accept_all body 60 Sample.id4 Sample.w0 in
  r.1 = Raise (HTTPException 404 "Facility not found for given code") ∧
  r.2 = Sample.w0.
Proof.
  intros body r.
  assert (∀ d, d ∈ collection_of "facility" Sample.w0 →
               fields d !! "code" ≠ Some (VStr (FeedbackCreate.facility_code body)))
    as Hn.
  { apply Forall_forall. apply (bool_decide_unpack _). vm_compute. exact I. }
  destruct (submit_unknown_facility Sample.accept_all body 60 Sample.id4 Sample.db0 Hn)
    as (Hr & _ & Hw & _).
  split; assumption.
Defined.

(** ** Requests that only read, and the statistics endpoint *)

Lemma attach_staff_name_run db item :
  attach_staff_name item (Some db)
  = (Return (leaderboard_entry (Some db) item), Some db).
Proof.
  unfold attach_staff_name, leaderboard_entry, staff_of, bind.
  destruct item as [k n]. simpl.
  destruct k as [| | | |s| |o]; simpl; try reflexivity.
  - unfold ObjectId_new, ObjectId.
    destruct (ObjectId_is_valid s); simpl; [|reflexivity].
    unfold find_one, bind, collection, ret. simpl.
    destruct (find_one_in _ _) as [st|] eqn:E; [|reflexivity].
    by rewrite falsy_doc_Some.
  - unfold find_one, bind, collection, ret. simpl.
    destruct (find_one_in _ _) as [st|] eqn:E; [|reflexivity].
    by rewrite falsy_doc_Some.
Qed.

Lemma mapM_run {A B} (f : A → M B) (g : A → B) w l :
  (∀ a, f a w = (Return (g a), w)) →
  mapM f l w = (Return (map g l), w).
Proof.
  intros Hf. induction l as [|a l IH]; [reflexivity|].
  simpl. unfold bind. rewrite Hf, IH. reflexivity.
Qed.

Lemma stats_run db :
  let w := Some db in
  ∃ c, stats w
       = (Return {| counts := c;
                    leaderboard := map (leaderboard_entry w)
                                     (aggregate_leaderboard (collection_of "feedback" w)) |},
          w) ∧
       c !! "total" = Some (VInt (Z.of_nat (length (collection_of "feedback" w)))).
Proof.
  intros w. subst w. eexists. split.
  - unfold stats, bind, require_db, count_documents, collection, ret. simpl.
    rewrite (mapM_run _ (leaderboard_entry (Some db))) by apply attach_staff_name_run.
    reflexivity.
  - simpl. rewrite lookup_insert_eq. unfold find.
    f_equal. f_equal. f_equal.
    induction (default [] (db !! "feedback")) as [|x l IH]; [done|].
    rewrite filter_cons, decide_True by apply matches_empty. simpl. by rewrite IH.
Qed.

Lemma stats_world w : (stats w).2 = w.
Proof.
  destruct w as [db|]; [|reflexivity].
  destruct (stats_run db) as (c & -> & _). reflexivity.
Qed.

Lemma list_feedback_world s f a l w : (list_feedback s f a l w).2 = w.
Proof. destruct w; reflexivity. Qed.

Lemma get_facility_by_code_world code w : (get_facility_by_code code w).2 = w.
Proof.
  destruct w as [db|]; [|reflexivity].
  unfold get_facility_by_code, bind, require_db, find_one, collection, ret. simpl.
  by destruct (falsy_doc _).
Qed.

Lemma list_staff_world w : (list_staff w).2 = w.
Proof. destruct w; reflexivity. Qed.

Lemma create_document_feedback name data now new_id w :
  name ≠ "feedback" →
  collection_of "feedback" (create_document name data now new_id w).2
  = collection_of "feedback" w.
Proof.
  intros Hn. destruct w as [db|]; [|reflexivity].
  unfold create_document, insert_one, bind, collection, set_collection, ret, raise.
  simpl. case_decide; [reflexivity|]. simpl. by rewrite lookup_insert_ne.
Qed.

Lemma create_facility_feedback p now new_id w :
  collection_of "feedback" (create_facility p now new_id w).2 = collection_of "feedback" w.
Proof.
  destruct w as [db|]; [|reflexivity].
  unfold create_facility, bind, require_db, find_one, collection, ret. simpl.
  destruct (negb (falsy_doc _)); [reflexivity|].
  unfold create_document, insert_one, bind, collection, set_collection, ret, raise.
  simpl. case_decide; [reflexivity|]. simpl.
  unfold ObjectId_new. destruct (ObjectId new_id); simpl; by rewrite lookup_insert_ne.
Qed.

Lemma create_staff_feedback p now new_id w :
  collection_of "feedback" (create_staff p now new_id w).2 = collection_of "feedback" w.
Proof.
  destruct w as [db|]; [|reflexivity].
  unfold create_staff, bind, require_db, find_one, collection, ret.
  unfold create_document, insert_one, bind, collection, set_collection, ret, raise.
  simpl. case_decide; [reflexivity|]. simpl.
  unfold ObjectId_new. destruct (ObjectId new_id); simpl; by rewrite lookup_insert_ne.
Qed.

Lemma find_one_in_app q c1 c2 :
  find_one_in q (c1 ++ c2)
  = match find_one_in q c1 with Some d => Some d | None => find_one_in q c2 end.
Proof.
  induction c1 as [|x c1 IH]; [done|].
  simpl. rewrite !find_one_in_cons. by case_decide.
Qed.


(** ** The status of a record across one request *)

Lemma transition_same r w w' o :
  status_written r o = None →
  collection_of "feedback" w' = collection_of "feedback" w →
  transition r w w' o.
Proof.
  intros Hw Heq. unfold transition, record_of. rewrite Heq, Hw. split_and!.
  - intros d Hd. by exists d.
  - intros d' Hn Hd'. congruence.
  - done.
Qed.

Lemma transition_patch r w o upd i s :
  (∀ body now new_id, r ≠ SubmitFeedback body now new_id) →
  status_written r o = (if decide (ObjectId i = Some o) then Some s else None) →
  upd !! "status" = Some (VStr s) →
  transition r w (patch_record upd i w).2 o.
Proof.
  intros Hns Hw Hup. unfold transition.
  rewrite patch_record_record_of, patch_record_ids, Hw. split_and!.
  - intros d Hd. rewrite Hd. case_decide.
    + eexists. split; [reflexivity|]. by rewrite apply_set_lookup, Hup.
    + by exists d.
  - intros d' Hn. rewrite Hn. by case_decide.
  - done.
Qed.

Lemma transition_append body now new_id w w' o data :
  collection_of "feedback" w'
  = (collection_of "feedback" w ++ [Document new_id data])%list →
  data !! "status" = Some (VStr "open") →
  data !! "started_at" = Some VNone →
  data !! "resolved_at" = Some VNone →
  transition (SubmitFeedback body now new_id) w w' o.
Proof.
  intros Happ Hs Hst Hre. unfold transition, record_of.
  rewrite Happ, find_one_in_app. simpl. split_and!.
  - intros d Hd. rewrite Hd. by exists d.
  - intros d' Hn. rewrite Hn, find_one_in_cons.
    case_decide as Hm; [|done]. intros [= <-].
    apply matches_id in Hm. simpl in *. subst. split_and!; [by do 2 eexists|done..].
  - rewrite map_app. by apply prefix_app_r.
Qed.

Section Machine.
Variable is_http_url : string → bool.

(** C1, as amended.  Across any request of the service, for every feedback
    identifier [o]: a record that exists still exists afterwards, and its
    status is [in_progress] after an Assign or a Start of [o], [resolved]
    after a Resolve of [o], whatever it was before, and unchanged after any
    other request; a record that did not exist and now does was created by
    a Submit, with status [open] and neither [started_at] nor [resolved_at];
    and the collection keeps all its identifiers, so no request deletes a
    record. *)
Theorem status_transitions r w o :
  let w' := step is_http_url r w in
  (∀ d, record_of w o = Some d →
        ∃ d', record_of w' o = Some d' ∧
              fields d' !! "status"
              = match status_written r o with
                | Some s => Some (VStr s)
                | None => fields d !! "status"
                end) ∧
  (∀ d', record_of w o = None → record_of w' o = Some d' →
         (∃ body now, r = SubmitFeedback body now o) ∧
         fields d' !! "status" = Some (VStr "open") ∧
         fields d' !! "started_at" = Some VNone ∧
         fields d' !! "resolved_at" = Some VNone) ∧
  map _id (collection_of "feedback" w) `prefix_of` map _id (collection_of "feedback" w').
Proof.
  intros w'. subst w'. change (transition r w (step is_http_url r w) o).
  destruct r as [p now new_id|code|p now new_id| |body now new_id|s f a l
                |i p t1 t2|i p t1 t2|i p t1 t2| ]; simpl.
  - apply transition_same; [done|]. apply create_facility_feedback.
  - apply transition_same; [done|]. by rewrite get_facility_by_code_world.
  - apply transition_same; [done|]. apply create_staff_feedback.
  - apply transition_same; [done|]. by rewrite list_staff_world.
  - unfold post_api_feedback.
    destruct (FeedbackCreate.valid body); [|by apply transition_same].
    destruct w as [db|]; [|by apply transition_same].
    destruct (submit_feedback_effect is_http_url body now new_id db)
      as [Hw|(data & Hw & _ & _ & Hs & Ha & Hst & Hr & _)]; simpl in Hw; rewrite Hw.
    + by apply transition_same.
    + eapply transition_append; [|done..]. simpl. by rewrite lookup_insert_eq.
  - apply transition_same; [done|].
    unfold get_api_feedback. by rewrite list_feedback_world.
  - rewrite assign_feedback_patch.
    eapply transition_patch; [done|reflexivity|]. apply (assign_updates_lookup p t1 t2).
  - rewrite start_task_patch.
    eapply transition_patch; [done|reflexivity|]. apply (start_updates_lookup p t1 t2).
  - rewrite resolve_task_patch.
    eapply transition_patch; [done|reflexivity|]. apply (resolve_updates_lookup p t1 t2).
  - apply transition_same; [done|]. by rewrite stats_world.
Qed.

End Machine.

(** C1, counterexample to the claim as stated: the record [id3] of the sample
    store is resolved; one Assign, or one Start, brings it back to
    [in_progress]. *)
Lemma resolved_record_reopened :
  field_of Sample.w0 Sample.id3 "status" = Some (VStr "resolved") ∧
  field_of (assign_feedback Sample.id3 (AssignPayload.Build Sample.staffA)
              50 51 Sample.w0).2 Sample.id3 "status" = Some (VStr "in_progress") ∧
  field_of (start_task Sample.id3 (StartPayload.Build None None None)
              50 51 Sample.w0).2 Sample.id3 "status" = Some (VStr "in_progress").
Proof. split_and!; vm_compute; reflexivity. Qed.

(** ** List *)

Lemma add_filter_matches k v q d :
  k ≠ "_id" → q !! k = None →
  matches (add_filter k v q) d ↔ passes k v d ∧ matches q d.
Proof.
  intros Hk Hq. unfold add_filter, passes, truthy_str.
  destruct v as [s|]; [|tauto].
  destruct (decide (s = "")) as [->|Hs]; simpl; [tauto|].
  rewrite (proj2 (String.eqb_neq s "")) by done. simpl.
  rewrite matches_insert, as_dict_lookup_ne by done. done.
Qed.

Lemma add_filter_lookup_ne k k' v (q : dict) :
  k ≠ k' → add_filter k v q !! k' = q !! k'.
Proof.
  intros Hk. unfold add_filter. destruct (truthy_str v); [|done].
  by rewrite lookup_insert_ne.
Qed.

Lemma query_matches s f a d :
  matches (add_filter "assigned_to" a
             (add_filter "facility_code" f (add_filter "status" s ∅))) d
  ↔ wanted s f a d.
Proof.
  rewrite add_filter_matches; [|done|by rewrite !add_filter_lookup_ne].
  rewrite add_filter_matches; [|done|by rewrite !add_filter_lookup_ne].
  rewrite add_filter_matches; [|done|done].
  unfold wanted. pose proof (matches_empty d). tauto.
Qed.

Global Instance key_le_trans : Transitive key_le.
Proof. intros [x|] [y|] [z|]; simpl; try done. lia. Qed.

Global Instance key_le_total : Total key_le.
Proof. intros [x|] [y|]; simpl; try (by left); try (by right). lia. Qed.

Global Instance newer_first_trans field : Transitive (newer_first field).
Proof. intros x y z Hxy Hyz. unfold newer_first in *. by etrans. Qed.

Global Instance newer_first_total field : Total (newer_first field).
Proof. intros x y. unfold newer_first. destruct (total key_le (date_of field x) (date_of field y)); auto. Qed.

Lemma list_feedback_run db s f a l :
  list_feedback s f a l (Some db)
  = (Return (map (fun d => serialize_doc (Some d))
               (let docs := sort_desc "created_at"
                              (filter (wanted s f a) (collection_of "feedback" (Some db))) in
                if truthy_int l then cursor_limit (default 0 l) docs else docs)),
     Some db).
Proof.
  unfold list_feedback, bind, require_db, collection, ret. simpl.
  unfold find. rewrite (list_filter_iff _ (wanted s f a)); [done|].
  intros d. apply query_matches.
Qed.

(** C8, as amended.  List returns, serialized, a list [docs] of feedback
    records such that: together with the records [rest] that it leaves out,
    [docs] is exactly the records of the collection that pass every filter
    given and not empty (a filter that is absent or the empty string
    constrains nothing); [docs] is ordered newest first by [created_at] and
    no record left out is newer than one returned; for a positive [limit],
    [docs] has [limit] entries or all the matching ones if they are fewer;
    with no limit or with the limit 0 nothing is left out; and a request
    without [limit] is served with the limit 100.  The store is unchanged. *)
Theorem list_feedback_spec db status facility_code assigned_to limit :
  let w := Some db in
  let all := filter (wanted status facility_code assigned_to)
               (collection_of "feedback" w) in
  ∃ docs rest,
    list_feedback status facility_code assigned_to limit w
    = (Return (map (fun d => serialize_doc (Some d)) docs), w) ∧
    docs ++ rest ≡ₚ all ∧
    StronglySorted (newer_first "created_at") (docs ++ rest) ∧
    (∀ n, limit = Some n → 0 < n →
          length docs = Nat.min (Z.to_nat n) (length all)) ∧
    (limit = None ∨ limit = Some 0 → rest = []) ∧
    get_api_feedback status facility_code assigned_to None w
    = list_feedback status facility_code assigned_to (Some 100) w.
Proof.
  intros w all. subst w.
  set (sorted := sort_desc "created_at" all).
  assert (sorted ≡ₚ all) as Hperm by apply merge_sort_Permutation.
  assert (StronglySorted (newer_first "created_at") sorted) as Hsorted
    by apply (StronglySorted_merge_sort _).
  rewrite list_feedback_run. fold all. fold sorted. simpl.
  destruct (truthy_int limit) eqn:Ht.
  - destruct limit as [n|]; [|discriminate]. simpl in *.
    apply negb_true_iff, Z.eqb_neq in Ht.
    unfold cursor_limit. rewrite decide_False by done.
    exists (take (Z.to_nat (Z.abs n)) sorted), (drop (Z.to_nat (Z.abs n)) sorted).
    rewrite take_drop. split_and!; try done.
    + intros m [= <-] Hm. rewrite length_take, Hperm. f_equal. lia.
    + intros [?|[= ->]]; done.
  - exists sorted, []. rewrite app_nil_r. split_and!; try done.
    intros n -> Hn. simpl in Ht. apply negb_false_iff, Z.eqb_eq in Ht. lia.
Qed.

(** C10.  With a limit that is falsy ([None] or 0) List returns every record
    that passes the filters, each once, however many they are; a request
    that carries [limit=0] is served with 0, not with the default 100; and a
    filter given as the empty string selects what the omitted filter
    selects. *)
Theorem list_feedback_falsy_limit db status facility_code assigned_to limit :
  limit = None ∨ limit = Some 0 →
  let w := Some db in
  let all := filter (wanted status facility_code assigned_to)
               (collection_of "feedback" w) in
  (∃ docs,
     list_feedback status facility_code assigned_to limit w
     = (Return (map (fun d => serialize_doc (Some d)) docs), w) ∧
     docs ≡ₚ all ∧
     length docs = length all) ∧
  get_api_feedback status facility_code assigned_to (Some 0) w
  = list_feedback status facility_code assigned_to (Some 0) w ∧
  list_feedback (Some "") facility_code assigned_to limit w
  = list_feedback None facility_code assigned_to limit w ∧
  list_feedback status (Some "") assigned_to limit w
  = list_feedback status None assigned_to limit w ∧
  list_feedback status facility_code (Some "") limit w
  = list_feedback status facility_code None limit w.
Proof.
  intros Hl w all. subst w.
  split; [|split_and!; reflexivity].
  assert (truthy_int limit = false) as Ht by (by destruct Hl as [->| ->]).
  exists (sort_desc "created_at" all).
  assert (sort_desc "created_at" all ≡ₚ all) as Hperm
    by apply merge_sort_Permutation.
  split_and!.
  - rewrite list_feedback_run. fold all. simpl. by rewrite Ht.
  - exact Hperm.
  - by rewrite Hperm.
Qed.

(** The limit 0 on the sample store: all three records. *)
Lemma list_feedback_falsy_limit_witness :
  ∃ docs,
    list_feedback None None None (Some 0) Sample.w0
    = (Return (map (fun d => serialize_doc (Some d)) docs), Sample.w0) ∧
    length docs = 3%nat.
Proof.
  destruct (list_feedback_falsy_limit Sample.db0 None None None (Some 0)
              ltac:(right; reflexivity)) as [(docs & Hrun & _ & Hlen) _].
  exists docs. split; [exact Hrun|]. rewrite Hlen. vm_compute. reflexivity.
Defined.

(** C8, counterexample to the claim as stated: the request with [limit=0]
    returns three entries, more than its limit; and the request that
    provides the status filter [""] returns records whose status is not
    [""]. *)
Lemma list_feedback_counterexample :
  match (get_api_feedback None None None (Some 0) Sample.w0).1 with
  | Return docs => Z.of_nat (length docs)
  | Raise _ => 0
  end = 3 ∧
  match (get_api_feedback (Some "") None None None Sample.w0).1 with
  | Return docs => map (fun doc => doc ≫= (.!! "status")) docs
  | Raise _ => []
  end = [Some (RStr "resolved"); Some (RStr "in_progress"); Some (RStr "open")].
Proof. split; vm_compute; reflexivity. Qed.

(** ** The [$group] stage *)








(** ** The leaderboard pipeline *)



Global Instance more_resolved_trans : Transitive more_resolved.
Proof. intros x y z. unfold more_resolved. lia. Qed.

Global Instance more_resolved_total : Total more_resolved.
Proof. intros x y. unfold more_resolved. lia. Qed.



(** The example of the specification: counts 3, 5 and 1 come out as 5, 3, 1;
    the resolved record with no assignee is in no group; a key without a
    staff record keeps its entry, with a null name. *)
Lemma stats_leaderboard_example :
  match (stats (Some Sample.board_db)).1 with
  | Return r =>
      map (fun e => (e !! "staff_id", e !! "resolved_count", e !! "staff_name"))
        (leaderboard r)
  | Raise _ => []
  end
  = [ (Some (VStr Sample.staffB), Some (VInt 5), Some VNone);
      (Some (VStr Sample.staffA), Some (VInt 3), Some (VStr "Asha"));
      (Some (VStr "temp"), Some (VInt 1), Some VNone) ].
Proof. vm_compute. reflexivity. Qed.

(** ** Identifiers *)








(** ** Serialized documents *)

(** X2.  [serialize_doc] returns [None] for [None].  On a document it
    returns a dict that has the identifier as a string under [id] and no
    [_id]; every other field is kept under its name, a datetime rendered in
    ISO format and any other value as it is.  A stored field called [id] is
    hidden by the identifier. *)
Theorem serialize_doc_shape d :
  serialize_doc None = None ∧
  ∃ r, serialize_doc (Some d) = Some r ∧
       r !! "id" = Some (RStr (_id d)) ∧
       r !! "_id" = None ∧
       (∀ k, k ≠ "id" → k ≠ "_id" → r !! k = serialize_value <$> fields d !! k) ∧
       (∀ k t, k ≠ "id" → k ≠ "_id" → fields d !! k = Some (VDate t) →
               r !! k = Some (RIso t)).
Proof.
  split; [done|]. eexists. split; [reflexivity|].
  assert (∀ k, k ≠ "id" → k ≠ "_id" →
     (<["id" := RStr (_id d)]> (serialize_value <$> delete "_id" (as_dict d))
        : rdict) !! k
     = serialize_value <$> fields d !! k) as Hk.
  { intros k H1 H2. rewrite lookup_insert_ne by done.
    rewrite lookup_fmap, lookup_delete_ne by done. by rewrite as_dict_lookup_ne. }
  split_and!.
  - by rewrite lookup_insert_eq.
  - rewrite lookup_insert_ne by done. by rewrite lookup_fmap, lookup_delete_eq.
  - exact Hk.
  - intros k t H1 H2 Hd. by rewrite Hk, Hd.
Qed.

(** ** Insertion and lookup *)

Lemma find_one_in_id_fresh new_id data c :
  new_id ∉ map _id c →
  find_one_in {["_id" := VOid new_id]} (c ++ [Document new_id data])
  = Some (Document new_id data).
Proof.
  intros Hfresh. rewrite find_one_in_app.
  assert (find_one_in {["_id" := VOid new_id]} c = None) as ->.
  { apply find_one_in_None. intros d Hd Hm. apply matches_id in Hm.
    apply Hfresh. rewrite <- Hm. apply list_elem_of_In, in_map, list_elem_of_In, Hd. }
  rewrite find_one_in_cons, decide_True; [done|]. by apply matches_id.
Qed.

Lemma find_one_in_field_appended k v new_id data c :
  k ≠ "_id" → v ≠ VNone →
  (∀ d, d ∈ c → fields d !! k ≠ Some v) →
  data !! k = Some v →
  find_one_in {[k := v]} (c ++ [Document new_id data]) = Some (Document new_id data).
Proof.
  intros Hk Hv Hn Hd. rewrite find_one_in_app, find_one_in_None_field by done.
  rewrite find_one_in_cons, decide_True; [done|]. by apply matches_field.
Qed.

Lemma create_document_run name data now new_id db :
  let c := collection_of name (Some db) in
  create_document name data now new_id (Some db)
  = if decide (new_id ∈ map _id c) then (Raise DuplicateKeyError, Some db)
    else (Return new_id,
          Some (<[name := (c ++ [Document new_id (<["created_at" := VDate now]> data)])%list]> db)).
Proof.
  intros c. subst c.
  unfold create_document, insert_one, bind, collection, set_collection, ret, raise.
  simpl. by case_decide.
Qed.

Lemma collection_of_insert name name' c db :
  collection_of name (Some (<[name' := c]> db))
  = if decide (name = name') then c else collection_of name (Some db).
Proof.
  simpl. case_decide; subst.
  - by rewrite lookup_insert_eq.
  - by rewrite lookup_insert_ne.
Qed.

(** ** Facilities *)

Lemma get_facility_by_code_run code db :
  get_facility_by_code code (Some db)
  = match find_one_in {["code" := VStr code]} (collection_of "facility" (Some db)) with
    | Some d => (Return (serialize_doc (Some d)), Some db)
    | None => (Raise (HTTPException 404 "Facility not found"), Some db)
    end.
Proof.
  unfold get_facility_by_code, bind, require_db, find_one, collection, ret. simpl.
  destruct (find_one_in _ _) as [d|]; [|done]. by rewrite falsy_doc_Some.
Qed.

Lemma create_facility_exists p now new_id db d :
  find_one_in {["code" := VStr (Facility.code p)]} (collection_of "facility" (Some db))
  = Some d →
  create_facility p now new_id (Some db)
  = (Raise (HTTPException 400 "Facility code already exists"), Some db).
Proof.
  intros Hd. unfold create_facility, bind, require_db, find_one, collection, ret.
  simpl in *. rewrite Hd. by rewrite falsy_doc_Some.
Qed.

Lemma create_facility_new p now new_id db :
  find_one_in {["code" := VStr (Facility.code p)]} (collection_of "facility" (Some db))
  = None →
  new_id ∉ map _id (collection_of "facility" (Some db)) →
  canonical new_id →
  let doc := Document new_id (<["created_at" := VDate now]> (Facility.model_dump p)) in
  create_facility p now new_id (Some db)
  = (Return (serialize_doc (Some doc)),
     Some (<["facility" := (collection_of "facility" (Some db) ++ [doc])%list]> db)).
Proof.
  intros Hn Hfresh Hcan doc.
  unfold create_facility, bind, require_db, find_one, collection, ret.
  simpl in Hn, Hfresh. simpl. rewrite Hn. simpl.
  pose proof (create_document_run "facility" (Facility.model_dump p) now new_id db) as Hrun.
  simpl in Hrun. rewrite Hrun, decide_False by done.
  unfold ObjectId_new. rewrite Hcan. simpl. rewrite lookup_insert_eq. simpl.
  by rewrite find_one_in_id_fresh.
Qed.

(** X3.  Registering a facility under a code that a stored facility already
    has fails with status 400 and leaves the store as it was. *)
Theorem create_facility_duplicate_code p now new_id db d :
  d ∈ collection_of "facility" (Some db) →
  fields d !! "code" = Some (VStr (Facility.code p)) →
  create_facility p now new_id (Some db)
  = (Raise (HTTPException 400 "Facility code already exists"), Some db).
Proof.
  intros Hd Hc.
  destruct (find_one_in {["code" := VStr (Facility.code p)]}
              (collection_of "facility" (Some db))) as [d'|] eqn:Hf.
  - by eapply create_facility_exists.
  - exfalso. eapply find_one_in_None; [exact Hf|exact Hd|]. by apply matches_field.
Qed.

(** X4.  Registering a facility under a code that is free stores it and
    returns it with its identifier, code, name, active flag and creation
    time; looking the code up afterwards returns the same document, and a
    further registration under that code is refused with status 400. *)
Theorem create_facility_then_lookup p now new_id db :
  (∀ d, d ∈ collection_of "facility" (Some db) →
        fields d !! "code" ≠ Some (VStr (Facility.code p))) →
  new_id ∉ map _id (collection_of "facility" (Some db)) →
  canonical new_id →
  let r := create_facility p now new_id (Some db) in
  ∃ doc,
    r.1 = Return (Some doc) ∧
    doc !! "id" = Some (RStr new_id) ∧
    doc !! "code" = Some (RStr (Facility.code p)) ∧
    doc !! "name" = Some (RStr (Facility.name p)) ∧
    doc !! "is_active" = Some (RBool (Facility.is_active p)) ∧
    doc !! "created_at" = Some (RIso now) ∧
    get_facility_by_code (Facility.code p) r.2 = (Return (Some doc), r.2) ∧
    (∀ p' now' new_id',
       Facility.code p' = Facility.code p →
       create_facility p' now' new_id' r.2
       = (Raise (HTTPException 400 "Facility code already exists"), r.2)).
Proof.
  intros Hn Hfresh Hcan r. subst r.
  assert (find_one_in {["code" := VStr (Facility.code p)]}
            (collection_of "facility" (Some db)) = None) as Hnone
    by by apply find_one_in_None_field.
  rewrite (create_facility_new p now new_id db Hnone Hfresh Hcan).
  set (data := <["created_at" := VDate now]> (Facility.model_dump p)).
  set (db' := <["facility" := _]> db).
  assert (find_one_in {["code" := VStr (Facility.code p)]}
            (collection_of "facility" (Some db')) = Some (Document new_id data)) as Hfound.
  { subst db'. rewrite collection_of_insert, decide_True by done.
    apply find_one_in_field_appended; [done|done|exact Hn|].
    subst data. rewrite lookup_insert_ne by done. reflexivity. }
  eexists. split; [reflexivity|]. simpl. split_and!.
  - by rewrite lookup_insert_eq.
  - rewrite lookup_insert_ne by done.
    rewrite lookup_fmap, lookup_delete_ne, as_dict_lookup_ne by done. reflexivity.
  - rewrite lookup_insert_ne by done.
    rewrite lookup_fmap, lookup_delete_ne, as_dict_lookup_ne by done. reflexivity.
  - rewrite lookup_insert_ne by done.
    rewrite lookup_fmap, lookup_delete_ne, as_dict_lookup_ne by done. reflexivity.
  - rewrite lookup_insert_ne by done.
    rewrite lookup_fmap, lookup_delete_ne, as_dict_lookup_ne by done.
    subst data. simpl. by rewrite lookup_insert_eq.
  - rewrite get_facility_by_code_run, Hfound. reflexivity.
  - intros p' now' id' Hc. eapply create_facility_exists. rewrite Hc. exact Hfound.
Qed.


(** X5.  The lookup of a facility by code changes nothing; it fails with
    NotFound exactly when no stored facility has the code, and what it
    returns otherwise is the serialization of a stored facility that has
    it. *)
Theorem get_facility_by_code_spec code db :
  let facility := collection_of "facility" (Some db) in
  let r := get_facility_by_code code (Some db) in
  r.2 = Some db ∧
  ((∃ e, r.1 = Raise e ∧ NotFound e)
   ↔ ∀ d, d ∈ facility → fields d !! "code" ≠ Some (VStr code)) ∧
  (∀ doc, r.1 = Return doc →
          ∃ d, d ∈ facility ∧ fields d !! "code" = Some (VStr code) ∧
               doc = serialize_doc (Some d)).
Proof.
  intros facility r. subst r. rewrite get_facility_by_code_run. fold facility.
  destruct (find_one_in {["code" := VStr code]} facility) as [d|] eqn:Hf; simpl.
  - split_and!; [done| |].
    + split; [intros (e & He & _); discriminate|].
      intros Hn. apply find_one_in_Some in Hf as [Hd Hm].
      apply matches_field in Hm; [|done..]. by destruct (Hn d Hd).
    + intros doc [= <-].
      pose proof Hf as [Hd Hm]%find_one_in_Some.
      apply matches_field in Hm; [|done..].
      exists d. by split_and!.
  - split_and!; [done| |discriminate].
    split; [|intros _; eexists; split; [done|by eexists]].
    intros _ d Hd Hc. eapply find_one_in_None; [exact Hf|exact Hd|].
    by apply matches_field.
Qed.


(** ** Staff *)

Lemma find_empty c : find ∅ c = c.
Proof.
  unfold find. induction c as [|x c IH]; [done|].
  rewrite filter_cons, decide_True by apply matches_empty. by rewrite IH.
Qed.

Lemma list_staff_run db :
  list_staff (Some db)
  = (Return (map (fun d => serialize_doc (Some d)) (collection_of "staff" (Some db))),
     Some db).
Proof.
  unfold list_staff, get_documents, bind, require_db, collection, ret. simpl.
  by rewrite find_empty.
Qed.

Lemma create_staff_new p now new_id db :
  new_id ∉ map _id (collection_of "staff" (Some db)) →
  canonical new_id →
  let doc := Document new_id (<["created_at" := VDate now]> (Staff.model_dump p)) in
  create_staff p now new_id (Some db)
  = (Return (serialize_doc (Some doc)),
     Some (<["staff" := (collection_of "staff" (Some db) ++ [doc])%list]> db)).
Proof.
  intros Hfresh Hcan doc.
  unfold create_staff, bind, require_db, find_one, collection, ret.
  simpl in Hfresh. simpl.
  pose proof (create_document_run "staff" (Staff.model_dump p) now new_id db) as Hrun.
  simpl in Hrun. rewrite Hrun, decide_False by done.
  unfold ObjectId_new. rewrite Hcan. simpl. rewrite lookup_insert_eq. simpl.
  by rewrite find_one_in_id_fresh.
Qed.

Lemma serialize_doc_lookup d k :
  k ≠ "id" → k ≠ "_id" →
  (<["id" := RStr (_id d)]> (serialize_value <$> delete "_id" (as_dict d)) : rdict) !! k
  = serialize_value <$> fields d !! k.
Proof.
  intros H1 H2. rewrite lookup_insert_ne by done.
  rewrite lookup_fmap, lookup_delete_ne by done. by rewrite as_dict_lookup_ne.
Qed.

(** X7.  Registering a staff member stores the record and returns it with
    its identifier, name and active flag; the staff list afterwards is the
    list before with the new record at its end, and feedback and facilities
    are untouched. *)
Theorem create_staff_then_list p now new_id db :
  new_id ∉ map _id (collection_of "staff" (Some db)) →
  canonical new_id →
  let r := create_staff p now new_id (Some db) in
  ∃ doc before,
    r.1 = Return (Some doc) ∧
    doc !! "id" = Some (RStr new_id) ∧
    doc !! "name" = Some (RStr (Staff.name p)) ∧
    doc !! "is_active" = Some (RBool (Staff.is_active p)) ∧
    list_staff (Some db) = (Return before, Some db) ∧
    list_staff r.2 = (Return (before ++ [Some doc])%list, r.2) ∧
    collection_of "feedback" r.2 = collection_of "feedback" (Some db) ∧
    collection_of "facility" r.2 = collection_of "facility" (Some db).
Proof.
  intros Hfresh Hcan r. subst r.
  rewrite (create_staff_new p now new_id db Hfresh Hcan).
  eexists. eexists. split; [reflexivity|]. simpl fst. simpl snd.
  rewrite !list_staff_run, !collection_of_insert.
  rewrite decide_True by done. rewrite !decide_False by done.
  split_and!.
  - simpl. by rewrite lookup_insert_eq.
  - rewrite serialize_doc_lookup by done. simpl.
    rewrite lookup_insert_ne by done. reflexivity.
  - rewrite serialize_doc_lookup by done. simpl.
    rewrite lookup_insert_ne by done. reflexivity.
  - reflexivity.
  - rewrite map_app. reflexivity.
  - reflexivity.
  - reflexivity.
Qed.


(** ** A successful Submit and the life of its record *)


Section SubmitSuccess.
Variable is_http_url : string → bool.





(** X9.  The request model takes [photo_url] as any string, the stored model
    as a URL: a body that passes the request validation but whose photo is
    refused by the URL check makes the handler raise pydantic's
    [ValidationError] on [photo_url] (no NotFound, no handled HTTP error), and
    nothing is stored. *)
Theorem submit_feedback_invalid_photo_url body now new_id db f url :
  f ∈ collection_of "facility" (Some db) →
  fields f !! "code" = Some (VStr (FeedbackCreate.facility_code body)) →
  FeedbackCreate.valid body = true →
  FeedbackCreate.photo_url body = Some url →
  is_http_url url = false →
  let r := post_api_feedback is_http_url body now new_id (Some db) in
  r.1 = Raise (ValidationError ["photo_url"]) ∧
  ¬ NotFound (ValidationError ["photo_url"]) ∧
  r.2 = Some db.
Proof.
  intros Hin Hcode Hv Hp Hu r. subst r.
  assert (∃ f', find_one_in {["code" := VStr (FeedbackCreate.facility_code body)]}
                  (collection_of "facility" (Some db)) = Some f') as [f' Hf].
  { destruct (find_one_in _ _) as [f'|] eqn:E; [by eexists|].
    exfalso. eapply find_one_in_None; [exact E|exact Hin|]. by apply matches_field. }
  unfold post_api_feedback. rewrite Hv.
  unfold submit_feedback, require_db, find_one, collection, ret, bind.
  unfold collection_of in Hf. cbv beta iota. rewrite Hf, falsy_doc_Some.
  unfold FeedbackSchema. unfold FeedbackCreate.valid in Hv. rewrite Hv, Hp.
  cbn [from_option]. rewrite Hu.
  split_and!; [reflexivity| |reflexivity].
  intros (detail & Hd). discriminate.
Qed.


End SubmitSuccess.


(** ** What a request leaves of the store *)

Lemma update_one_in_split q u c d :
  find_one_in q c = Some d →
  ∃ c1 c2, c = (c1 ++ d :: c2)%list ∧
           (update_one_in q u c).2 = (c1 ++ apply_set u d :: c2)%list.
Proof.
  induction c as [|x c IH]; [done|].
  rewrite find_one_in_cons. simpl. case_decide as Hm.
  - intros [= ->]. by exists [], c.
  - intros Hf. destruct (IH Hf) as (c1 & c2 & -> & Hu).
    destruct (update_one_in q u (c1 ++ d :: c2)) as [n c'] eqn:E. simpl in *.
    exists (x :: c1), c2. by rewrite Hu.
Qed.

Lemma update_one_in_Forall (P : document → Prop) q u c :
  (∀ d, P d → P (apply_set u d)) →
  Forall P c → Forall P (update_one_in q u c).2.
Proof.
  intros Hu. induction 1 as [|x c Hx Hc IH]; [constructor|].
  simpl. case_decide.
  - simpl. constructor; [by apply Hu|done].
  - destruct (update_one_in q u c) as [n c']. simpl in *. by constructor.
Qed.

Lemma patch_record_feedback upd i w :
  collection_of "feedback" (patch_record upd i w).2
  = match ObjectId i with
    | Some o => (update_one_in {["_id" := VOid o]} upd (collection_of "feedback" w)).2
    | None => collection_of "feedback" w
    end.
Proof.
  destruct w as [db|]; [|by destruct (ObjectId i)].
  unfold patch_record. destruct (ObjectId i) as [o|]; [|done].
  destruct (record_of (Some db) o) as [d|] eqn:Hr.
  - cbn [snd]. by rewrite collection_of_insert, decide_True.
  - cbn [snd]. unfold record_of in Hr. by rewrite (update_one_in_None _ _ _ Hr).
Qed.

Lemma patch_record_unchanged_on_error upd i w e :
  error_of (patch_record upd i w) = Some e → (patch_record upd i w).2 = w.
Proof.
  unfold error_of, patch_record. destruct w as [db|]; [|done].
  destruct (ObjectId i) as [o|]; [|done].
  destruct (record_of (Some db) o); [discriminate|done].
Qed.

Lemma create_facility_cases p now new_id db :
  let c := collection_of "facility" (Some db) in
  let r := create_facility p now new_id (Some db) in
  (r.2 = Some db ∧ (canonical new_id → ∃ e, r.1 = Raise e)) ∨
  (find_one_in {["code" := VStr (Facility.code p)]} c = None ∧
   ∃ data, data !! "code" = Some (VStr (Facility.code p)) ∧
           r.2 = Some (<["facility" := (c ++ [Document new_id data])%list]> db) ∧
           (canonical new_id → ∃ a, r.1 = Return a)).
Proof.
  intros c r. subst c r.
  destruct (find_one_in {["code" := VStr (Facility.code p)]}
              (collection_of "facility" (Some db))) as [d|] eqn:Hf.
  - left. rewrite (create_facility_exists _ _ _ _ _ Hf). split; [done|by eexists].
  - unfold create_facility, require_db, find_one, collection, ret, bind.
    unfold collection_of in Hf. cbv beta iota. rewrite Hf. cbn [falsy_doc negb].
    pose proof (create_document_run "facility" (Facility.model_dump p) now new_id db)
      as Hrun.
    unfold collection_of in Hrun. cbv beta iota zeta in Hrun. rewrite Hrun.
    case_decide.
    + left. split; [done|by eexists].
    + right. split; [done|].
      exists (<["created_at" := VDate now]> (Facility.model_dump p)). split_and!.
      * rewrite lookup_insert_ne by done. reflexivity.
      * unfold ObjectId_new. by destruct (ObjectId new_id).
      * intros Hcan. unfold ObjectId_new. rewrite Hcan. by eexists.
Qed.

Lemma create_staff_cases p now new_id db :
  let r := create_staff p now new_id (Some db) in
  (r.2 = Some db ∧ (canonical new_id → ∃ e, r.1 = Raise e)) ∨
  (∃ c, r.2 = Some (<["staff" := c]> db) ∧ (canonical new_id → ∃ a, r.1 = Return a)).
Proof.
  intros r. subst r.
  unfold create_staff, require_db, find_one, collection, ret, bind. cbv beta iota.
  pose proof (create_document_run "staff" (Staff.model_dump p) now new_id db) as Hrun.
  unfold collection_of in Hrun. cbv beta iota zeta in Hrun. rewrite Hrun.
  case_decide.
  - left. split; [done|by eexists].
  - right. eexists. split.
    + unfold ObjectId_new. by destruct (ObjectId new_id).
    + intros Hcan. unfold ObjectId_new. rewrite Hcan. by eexists.
Qed.


Section Requests.
Variable is_http_url : string → bool.

Lemma submit_feedback_cases body now new_id db :
  let c := collection_of "feedback" (Some db) in
  let r := submit_feedback is_http_url body now new_id (Some db) in
  (r.2 = Some db ∧ (canonical new_id → ∃ e, r.1 = Raise e)) ∨
  (∃ data, data !! "status" = Some (VStr "open") ∧
           r.2 = Some (<["feedback" := (c ++ [Document new_id data])%list]> db) ∧
           (canonical new_id → ∃ a, r.1 = Return a)).
Proof.
  intros c r. subst c r.
  unfold submit_feedback, require_db, find_one, collection, ret, bind. cbv beta iota.
  destruct (find_one_in _ (default [] (db !! "facility"))) as [f|] eqn:Hf.
  2:{ left. split; [done|by eexists]. }
  rewrite falsy_doc_Some.
  destruct (FeedbackSchema_cases is_http_url
              (FeedbackCreate.facility_code body) (FeedbackCreate.rating body)
              (FeedbackCreate.comment body) (FeedbackCreate.photo_url body) "open"
              (FeedbackCreate.user_lat body) (FeedbackCreate.user_lng body) (Some db))
    as [(fb & -> & _ & Hs & _) | (errs & -> & _)].
  2:{ left. split; [done|by eexists]. }
  pose proof (create_document_run "feedback" (Feedback.model_dump fb) now new_id db)
    as Hrun.
  unfold collection_of in Hrun. cbv beta iota zeta in Hrun. rewrite Hrun.
  case_decide.
  - left. split; [done|by eexists].
  - right. exists (<["created_at" := VDate now]> (Feedback.model_dump fb)). split_and!.
    + rewrite lookup_insert_ne by done. exact Hs.
    + unfold ObjectId_new. by destruct (ObjectId new_id).
    + intros Hcan. unfold ObjectId_new. rewrite Hcan. by eexists.
Qed.

(** X15.  A request that ends with an exception leaves the whole store as it
    was, whatever the request, provided the identifier generated for an
    insertion is a well-formed ObjectId. *)
Theorem failed_request_changes_nothing r w e :
  (∀ i, generated_id r = Some i → canonical i) →
  request_error is_http_url r w = Some e →
  step is_http_url r w = w.
Proof.
  intros Hid He.
  destruct r as [p now new_id|code|p now new_id| |body now new_id|s f a l
                |i p t1 t2|i p t1 t2|i p t1 t2| ]; simpl in *.
  - destruct w as [db|]; [|done].
    destruct (create_facility_cases p now new_id db) as [[Hw _]|(_ & data & _ & _ & Hok)];
      [done|].
    destruct (Hok (Hid _ eq_refl)) as [a Ha]. unfold error_of in He. by rewrite Ha in He.
  - apply get_facility_by_code_world.
  - destruct w as [db|]; [|done].
    destruct (create_staff_cases p now new_id db) as [[Hw _]|(c & _ & Hok)]; [done|].
    destruct (Hok (Hid _ eq_refl)) as [a Ha]. unfold error_of in He. by rewrite Ha in He.
  - apply list_staff_world.
  - unfold post_api_feedback in *. destruct (FeedbackCreate.valid body); [|done].
    destruct w as [db|]; [|done].
    destruct (submit_feedback_cases body now new_id db) as [[Hw _]|(data & _ & _ & Hok)];
      [done|].
    destruct (Hok (Hid _ eq_refl)) as [a Ha]. unfold error_of in He. by rewrite Ha in He.
  - unfold get_api_feedback. apply list_feedback_world.
  - rewrite assign_feedback_patch in *. by eapply patch_record_unchanged_on_error.
  - rewrite start_task_patch in *. by eapply patch_record_unchanged_on_error.
  - rewrite resolve_task_patch in *. by eapply patch_record_unchanged_on_error.
  - apply stats_world.
Qed.

(** X17.  The lookup of a facility, the staff list, the feedback list and
    the statistics never change the store, whether they succeed or fail. *)
Theorem read_only_requests r w :
  reads_only r = true → step is_http_url r w = w.
Proof.
  destruct r; try discriminate; intros _; simpl.
  - apply get_facility_by_code_world.
  - apply list_staff_world.
  - unfold get_api_feedback. apply list_feedback_world.
  - apply stats_world.
Qed.

(** X16.  With no database configured every request fails and the store
    stays unconfigured: the error is [HTTPException(500, "Database not
    configured")], except for a Submit whose body fails validation, which is
    refused before the handler is entered. *)
Theorem unconfigured_store r :
  step is_http_url r None = None ∧
  ∃ e, request_error is_http_url r None = Some e ∧
       (e = HTTPException 500 "Database not configured" ∨
        ∃ body now new_id, r = SubmitFeedback body now new_id ∧
                           FeedbackCreate.valid body = false ∧
                           e = RequestValidationError ["rating"]).
Proof.
  destruct r as [p now new_id|code|p now new_id| |body now new_id|s f a l
                |i p t1 t2|i p t1 t2|i p t1 t2| ]; simpl;
    try (split; [reflexivity|]; eexists; split; [reflexivity|]; by left).
  unfold post_api_feedback. destruct (FeedbackCreate.valid body) eqn:Hv.
  - split; [reflexivity|]. eexists. split; [reflexivity|]. by left.
  - split; [reflexivity|]. eexists. split; [reflexivity|]. right.
    by exists body, now, new_id.
Qed.

Lemma step_feedback_collection r w :
  let c := collection_of "feedback" w in
  let c' := collection_of "feedback" (step is_http_url r w) in
  c' = c ∨
  (∃ q upd s, c' = (update_one_in q upd c).2 ∧
              upd !! "status" = Some (VStr s) ∧ (s = "in_progress" ∨ s = "resolved")) ∨
  (∃ new_id data, c' = (c ++ [Document new_id data])%list ∧
                  data !! "status" = Some (VStr "open")).
Proof.
  intros c c'. subst c c'.
  destruct r as [p now new_id|code|p now new_id| |body now new_id|s f a l
                |i p t1 t2|i p t1 t2|i p t1 t2| ]; simpl.
  - left. apply create_facility_feedback.
  - left. by rewrite get_facility_by_code_world.
  - left. apply create_staff_feedback.
  - left. by rewrite list_staff_world.
  - unfold post_api_feedback. destruct (FeedbackCreate.valid body); [|by left].
    destruct w as [db|]; [|by left].
    destruct (submit_feedback_cases body now new_id db)
      as [[-> _]|(data & Hs & -> & _)]; [by left|].
    right. right. exists new_id, data. split; [|done].
    by rewrite collection_of_insert, decide_True.
  - left. unfold get_api_feedback. by rewrite list_feedback_world.
  - rewrite assign_feedback_patch, patch_record_feedback.
    destruct (ObjectId i) as [o|]; [|by left].
    right. left. eexists _, _, "in_progress". split; [reflexivity|].
    split; [apply (assign_updates_lookup p t1 t2)|by left].
  - rewrite start_task_patch, patch_record_feedback.
    destruct (ObjectId i) as [o|]; [|by left].
    right. left. eexists _, _, "in_progress". split; [reflexivity|].
    split; [apply (start_updates_lookup p t1 t2)|by left].
  - rewrite resolve_task_patch, patch_record_feedback.
    destruct (ObjectId i) as [o|]; [|by left].
    right. left. eexists _, _, "resolved". split; [reflexivity|].
    split; [apply (resolve_updates_lookup p t1 t2)|by right].
  - left. by rewrite stats_world.
Qed.

(** X18.  If every feedback record has one of the statuses [open],
    [in_progress], [resolved], then so has every record after any request. *)
Theorem status_domain_invariant r w :
  Forall valid_status (collection_of "feedback" w) →
  Forall valid_status (collection_of "feedback" (step is_http_url r w)).
Proof.
  intros Hinv.
  destruct (step_feedback_collection r w)
    as [->|[(q & upd & s & -> & Hs & Hv)|(new_id & data & -> & Hs)]].
  - exact Hinv.
  - apply update_one_in_Forall; [|exact Hinv].
    intros d _. unfold valid_status. rewrite apply_set_lookup, Hs.
    destruct Hv as [->| ->]; auto.
  - apply Forall_app. split; [exact Hinv|].
    constructor; [|constructor]. by left.
Qed.

Lemma step_facility_collection r w :
  let c := collection_of "facility" w in
  let c' := collection_of "facility" (step is_http_url r w) in
  c' = c ∨
  ∃ p now new_id data,
    r = CreateFacility p now new_id ∧
    c' = (c ++ [Document new_id data])%list ∧
    data !! "code" = Some (VStr (Facility.code p)) ∧
    find_one_in {["code" := VStr (Facility.code p)]} c = None.
Proof.
  intros c c'. subst c c'.
  destruct r as [p now new_id|code|p now new_id| |body now new_id|s f a l
                |i p t1 t2|i p t1 t2|i p t1 t2| ]; simpl.
  - destruct w as [db|]; [|by left].
    destruct (create_facility_cases p now new_id db)
      as [[-> _]|(Hn & data & Hc & -> & _)]; [by left|].
    right. exists p, now, new_id, data. split_and!; [done| |done|done].
    by rewrite collection_of_insert, decide_True.
  - left. by rewrite get_facility_by_code_world.
  - destruct w as [db|]; [|by left].
    destruct (create_staff_cases p now new_id db) as [[-> _]|(c & -> & _)]; [by left|].
    left. by rewrite collection_of_insert, decide_False.
  - left. by rewrite list_staff_world.
  - unfold post_api_feedback. destruct (FeedbackCreate.valid body); [|by left].
    destruct w as [db|]; [|by left].
    destruct (submit_feedback_cases body now new_id db)
      as [[-> _]|(data & Hs & -> & _)]; [by left|].
    left. by rewrite collection_of_insert, decide_False.
  - left. unfold get_api_feedback. by rewrite list_feedback_world.
  - left. rewrite assign_feedback_patch. by apply patch_record_other_collections.
  - left. rewrite start_task_patch. by apply patch_record_other_collections.
  - left. rewrite resolve_task_patch. by apply patch_record_other_collections.
  - left. by rewrite stats_world.
Qed.

(** X6.  If the codes of the stored facilities are pairwise distinct, they
    still are after any request: only a registration adds a facility, and
    only under a code that no stored facility has. *)
Theorem facility_codes_stay_unique r w :
  NoDup (facility_codes w) → NoDup (facility_codes (step is_http_url r w)).
Proof.
  intros Hnd. unfold facility_codes in *.
  destruct (step_facility_collection r w)
    as [->|(p & now & new_id & data & _ & -> & Hc & Hn)]; [exact Hnd|].
  rewrite omap_app. simpl. rewrite Hc. simpl.
  apply NoDup_app. split_and!; [exact Hnd| |apply NoDup_singleton].
  intros v Hv ->%list_elem_of_singleton.
  apply list_elem_of_omap in Hv as (d & Hd & Hcode).
  eapply find_one_in_None; [exact Hn|exact Hd|]. by apply matches_field.
Qed.

End Requests.


(** ** Counts *)

Lemma count_documents_status s db :
  count_documents "feedback" {["status" := VStr s]} (Some db)
  = (Return (Z.of_nat (with_status s (collection_of "feedback" (Some db)))), Some db).
Proof.
  unfold count_documents, bind, collection, ret, with_status, find. cbv beta iota.
  do 4 f_equal. apply list_filter_iff. intros d. by apply matches_field.
Qed.

Lemma with_status_sum c :
  (with_status "open" c + with_status "in_progress" c + with_status "resolved" c
   <= length c)%nat ∧
  (Forall valid_status c →
   (with_status "open" c + with_status "in_progress" c + with_status "resolved" c
    = length c)%nat).
Proof.
  unfold with_status. induction c as [|d c [IHle IHeq]]; [done|].
  rewrite !filter_cons. split.
  - repeat case_decide; simpl; try lia; congruence.
  - intros [Hd Hc]%Forall_cons. specialize (IHeq Hc).
    destruct Hd as [Hd|[Hd|Hd]]; rewrite Hd;
      repeat (case_decide; try congruence); simpl; lia.
Qed.

(** X19.  The counts of [stats]: [total] is the number of feedback records,
    and [open], [in_progress] and [resolved] are the numbers of records with
    that status; the three never add up to more than [total], and to exactly
    [total] when every record has one of the three statuses.  The store is
    unchanged. *)
Theorem stats_counts db :
  let c := collection_of "feedback" (Some db) in
  ∃ r, stats (Some db) = (Return r, Some db) ∧
       counts r !! "total" = Some (VInt (Z.of_nat (length c))) ∧
       counts r !! "open" = Some (VInt (Z.of_nat (with_status "open" c))) ∧
       counts r !! "in_progress" = Some (VInt (Z.of_nat (with_status "in_progress" c))) ∧
       counts r !! "resolved" = Some (VInt (Z.of_nat (with_status "resolved" c))) ∧
       (with_status "open" c + with_status "in_progress" c + with_status "resolved" c
        <= length c)%nat ∧
       (Forall valid_status c →
        (with_status "open" c + with_status "in_progress" c + with_status "resolved" c
         = length c)%nat).
Proof.
  intros c. subst c.
  destruct (with_status_sum (collection_of "feedback" (Some db))) as [Hle Heq].
  eexists. split.
  - unfold stats, require_db. unfold bind at 1. cbv beta iota.
    unfold bind at 1.
    change (count_documents "feedback" ∅ (Some db))
      with (Return (Z.of_nat (length (find ∅ (collection_of "feedback" (Some db))))),
            Some db).
    cbv beta iota. rewrite find_empty.
    unfold bind at 1. rewrite count_documents_status. cbv beta iota.
    unfold bind at 1. rewrite count_documents_status. cbv beta iota.
    unfold bind at 1. rewrite count_documents_status. cbv beta iota.
    unfold bind at 1, collection at 1. cbv beta iota.
    unfold bind at 1.
    rewrite (mapM_run _ (leaderboard_entry (Some db))) by apply attach_staff_name_run.
    reflexivity.
  - cbn [counts]. split_and!; [reflexivity..|exact Hle|exact Heq].
Qed.


(** ** What the PATCH handlers leave alone *)

Lemma patch_record_frame upd i w o' :
  ObjectId i ≠ Some o' →
  record_of (patch_record upd i w).2 o' = record_of w o' ∧
  collection_of "facility" (patch_record upd i w).2 = collection_of "facility" w ∧
  collection_of "staff" (patch_record upd i w).2 = collection_of "staff" w ∧
  map _id (collection_of "feedback" (patch_record upd i w).2)
  = map _id (collection_of "feedback" w).
Proof.
  intros Hne. split_and!.
  - by rewrite patch_record_record_of, decide_False.
  - by apply patch_record_other_collections.
  - by apply patch_record_other_collections.
  - apply patch_record_ids.
Qed.

(** X14.  Assign, Start and Resolve addressed to one identifier leave every
    feedback record with another identifier, every facility and every staff
    record as they were, and keep the identifiers of the feedback collection
    in their order. *)
Theorem patch_handlers_frame feedback_id pa ps pr t1 t2 w o' :
  ObjectId feedback_id ≠ Some o' →
  let w1 := (assign_feedback feedback_id pa t1 t2 w).2 in
  let w2 := (start_task feedback_id ps t1 t2 w).2 in
  let w3 := (resolve_task feedback_id pr t1 t2 w).2 in
  (record_of w1 o' = record_of w o' ∧
   record_of w2 o' = record_of w o' ∧
   record_of w3 o' = record_of w o') ∧
  (collection_of "facility" w1 = collection_of "facility" w ∧
   collection_of "facility" w2 = collection_of "facility" w ∧
   collection_of "facility" w3 = collection_of "facility" w) ∧
  (collection_of "staff" w1 = collection_of "staff" w ∧
   collection_of "staff" w2 = collection_of "staff" w ∧
   collection_of "staff" w3 = collection_of "staff" w) ∧
  (map _id (collection_of "feedback" w1) = map _id (collection_of "feedback" w) ∧
   map _id (collection_of "feedback" w2) = map _id (collection_of "feedback" w) ∧
   map _id (collection_of "feedback" w3) = map _id (collection_of "feedback" w)).
Proof.
  intros Hne w1 w2 w3. subst w1 w2 w3.
  rewrite assign_feedback_patch, start_task_patch, resolve_task_patch.
  destruct (patch_record_frame (assign_updates pa t1 t2) feedback_id w o' Hne)
    as (A1 & A2 & A3 & A4).
  destruct (patch_record_frame (start_updates ps t1 t2) feedback_id w o' Hne)
    as (S1 & S2 & S3 & S4).
  destruct (patch_record_frame (resolve_updates pr t1 t2) feedback_id w o' Hne)
    as (R1 & R2 & R3 & R4).
  by split_and!.
Qed.

(** X13.  The fields a handler does not own survive it: Assign keeps
    [resolved_at], the photos and what was submitted; Start keeps
    [resolved_at], [assigned_to], [after_photo_url] and what was submitted;
    Resolve keeps [started_at], [assigned_to], [before_photo_url] and what
    was submitted. *)
Theorem handlers_keep_other_stage_fields feedback_id pa ps pr t1 t2 w o :
  let w1 := (assign_feedback feedback_id pa t1 t2 w).2 in
  let w2 := (start_task feedback_id ps t1 t2 w).2 in
  let w3 := (resolve_task feedback_id pr t1 t2 w).2 in
  (∀ k, k ∈ ["resolved_at"; "created_at"; "facility_code"; "rating"; "comment";
             "before_photo_url"; "after_photo_url"] →
        field_of w1 o k = field_of w o k) ∧
  (∀ k, k ∈ ["resolved_at"; "assigned_to"; "created_at"; "facility_code"; "rating";
             "comment"; "after_photo_url"] →
        field_of w2 o k = field_of w o k) ∧
  (∀ k, k ∈ ["started_at"; "assigned_to"; "created_at"; "facility_code"; "rating";
             "comment"; "before_photo_url"] →
        field_of w3 o k = field_of w o k).
Proof.
  intros w1 w2 w3. subst w1 w2 w3.
  rewrite assign_feedback_patch, start_task_patch, resolve_task_patch.
  assert (∀ upd k, upd !! k = None →
            field_of (patch_record upd feedback_id w).2 o k = field_of w o k) as Hkeep.
  { intros upd k Hk. unfold field_of. rewrite patch_record_record_of.
    case_decide; [|done]. destruct (record_of w o) as [d|]; [|done].
    cbn [fmap option_fmap option_map]. by rewrite apply_set_lookup, Hk. }
  destruct (assign_updates_lookup pa t1 t2) as (_ & _ & _ & _ & Ha).
  destruct (start_updates_lookup ps t1 t2) as (_ & _ & _ & _ & _ & _ & Hs).
  destruct (resolve_updates_lookup pr t1 t2) as (_ & _ & _ & _ & _ & _ & Hr).
  split_and!; intros k Hk; apply Hkeep; [apply Ha|apply Hs|apply Hr];
    rewrite !elem_of_cons in Hk; rewrite !not_elem_of_cons;
    (split_and!; [..|apply not_elem_of_nil]);
    repeat (destruct Hk as [->|Hk]; [discriminate|]); by apply elem_of_nil in Hk.
Qed.

(** Start on the started record of the sample store. *)
Lemma start_task_started_at_witness :
  field_of Sample.w0 Sample.id2 "started_at" = Some (VDate 25) ∧
  field_of (start_task Sample.id2 (StartPayload.Build None None None) 50 51
              Sample.w0).2 Sample.id2 "started_at" = Some (VDate 51).
Proof.
  split; [vm_compute; reflexivity|].
  apply (start_task_started_at Sample.db0 Sample.id2 Sample.id2
           (StartPayload.Build None None None) 50 51
           (Sample.feedback_doc Sample.id2 "in_progress" (VStr Sample.staffA) 20
              (VDate 25) VNone));
    vm_compute; reflexivity.
Defined.

(** A record of the sample store that Assign is not aimed at. *)
Lemma patch_handlers_frame_witness :
  record_of (assign_feedback Sample.id1 (AssignPayload.Build Sample.staffA) 50 51
               Sample.w0).2 Sample.id3
  = record_of Sample.w0 Sample.id3.
Proof.
  destruct (patch_handlers_frame Sample.id1 (AssignPayload.Build Sample.staffA)
              (StartPayload.Build None None None) (ResolvePayload.Build None None None)
              50 51 Sample.w0 Sample.id3 ltac:(vm_compute; discriminate))
    as ((H & _ & _) & _).
  exact H.
Defined.


(** ** Resolve and the leaderboard counts *)

Lemma resolved_by_app c1 c2 k :
  resolved_by (c1 ++ c2) k = (resolved_by c1 k + resolved_by c2 k)%nat.
Proof. unfold resolved_by. by rewrite filter_app, length_app. Qed.

Lemma resolved_by_cons d c k :
  resolved_by (d :: c) k
  = ((if decide (fields d !! "status" = Some (VStr "resolved") ∧
                 fields d !! "assigned_to" = Some k) then 1 else 0)
     + resolved_by c k)%nat.
Proof. unfold resolved_by. rewrite filter_cons. by case_decide. Qed.

(** X20.  Resolving a record that was not resolved raises by one the number
    of resolved records that carry its [assigned_to] value, the number the
    leaderboard ranks by, and changes that number for no other value. *)
Theorem resolve_adds_one_to_assignee db feedback_id o p t1 t2 d k :
  ObjectId feedback_id = Some o →
  record_of (Some db) o = Some d →
  fields d !! "status" ≠ Some (VStr "resolved") →
  let c := collection_of "feedback" (Some db) in
  let c' := collection_of "feedback" (resolve_task feedback_id p t1 t2 (Some db)).2 in
  resolved_by c' k
  = (resolved_by c k
     + if decide (fields d !! "assigned_to" = Some k) then 1 else 0)%nat.
Proof.
  intros Ho Hd Hs c c'. subst c c'.
  rewrite resolve_task_patch, patch_record_feedback, Ho.
  destruct (update_one_in_split {["_id" := VOid o]} (resolve_updates p t1 t2) _ d Hd)
    as (c1 & c2 & Hc & ->).
  rewrite Hc, !resolved_by_app, !resolved_by_cons.
  destruct (resolve_updates_lookup p t1 t2) as (Hst & _ & _ & _ & _ & _ & Hk).
  rewrite !apply_set_lookup, Hst.
  rewrite (Hk "assigned_to")
    by (rewrite !not_elem_of_cons; (split_and!; [..|apply not_elem_of_nil]); discriminate).
  destruct (decide (fields d !! "status" = Some (VStr "resolved") ∧
                    fields d !! "assigned_to" = Some k)) as [[Hx _]|_];
    [contradiction|].
  destruct (decide (fields d !! "assigned_to" = Some k)) as [Ha|Ha].
  - rewrite decide_True by (split; [reflexivity|exact Ha]). lia.
  - rewrite decide_False by (intros [_ ?]; contradiction). lia.
Qed.

Lemma resolve_adds_one_to_assignee_witness :
  resolved_by (collection_of "feedback" Sample.w0) (VStr Sample.staffA) = 0%nat ∧
  resolved_by
    (collection_of "feedback"
       (resolve_task Sample.id2 (ResolvePayload.Build None None None) 50 51
          Sample.w0).2) (VStr Sample.staffA) = 1%nat.
Proof.
  split; [vm_compute; reflexivity|].
  etransitivity;
    [exact (resolve_adds_one_to_assignee Sample.db0 Sample.id2 Sample.id2
              (ResolvePayload.Build None None None) 50 51
              (Sample.feedback_doc Sample.id2 "in_progress" (VStr Sample.staffA) 20
                 (VDate 25) VNone) (VStr Sample.staffA)
              ltac:(vm_compute; reflexivity) ltac:(vm_compute; reflexivity)
              ltac:(vm_compute; discriminate))
    |vm_compute; reflexivity].
Defined.


(** ** The properties above on the sample store *)

Ltac in_sample := apply (bool_decide_unpack _); vm_compute; exact I.

(** A second registration of the code [TB-A]. *)
Lemma create_facility_duplicate_code_witness :
  create_facility (Facility.Build "TB-A" "Another block" None None None None true)
    60 "0000000000000000000000f2" Sample.w0
  = (Raise (HTTPException 400 "Facility code already exists"), Sample.w0).
Proof.
  apply (create_facility_duplicate_code
           (Facility.Build "TB-A" "Another block" None None None None true)
           60 "0000000000000000000000f2" Sample.db0
           (Document "0000000000000000000000f1"
              (list_to_map [("code", VStr "TB-A"); ("name", VStr "Toilet Block A")]))).
  - in_sample.
  - vm_compute. reflexivity.
Defined.

(** The registration of a new code, [TB-B]. *)
Lemma create_facility_then_lookup_witness :
  let p := Facility.Build "TB-B" "Toilet Block B" None None None None true in
  let r := create_facility p 60 "0000000000000000000000f2" Sample.w0 in
  ∃ doc, r.1 = Return (Some doc) ∧
         get_facility_by_code "TB-B" r.2 = (Return (Some doc), r.2).
Proof.
  intros p r.
  destruct (create_facility_then_lookup p 60 "0000000000000000000000f2" Sample.db0)
    as (doc & Hr & _ & _ & _ & _ & _ & Hg & _).
  - apply Forall_forall. in_sample.
  - in_sample.
  - vm_compute. reflexivity.
  - exists doc. split; [exact Hr|exact Hg].
Defined.

(** A new staff member. *)
Lemma create_staff_then_list_witness :
  let p := Staff.Build "Bala" None None None true in
  let r := create_staff p 60 Sample.staffB Sample.w0 in
  ∃ doc before,
    r.1 = Return (Some doc) ∧
    list_staff Sample.w0 = (Return before, Sample.w0) ∧
    list_staff r.2 = (Return (before ++ [Some doc])%list, r.2).
Proof.
  intros p r.
  destruct (create_staff_then_list p 60 Sample.staffB Sample.db0)
    as (doc & before & Hr & _ & _ & _ & Hb & Ha & _).
  - in_sample.
  - vm_compute. reflexivity.
  - exists doc, before. split_and!; [exact Hr|exact Hb|exact Ha].
Defined.




(** A photo that is no URL, with a validator that refuses everything. *)
Lemma submit_feedback_invalid_photo_url_witness :
  let body := FeedbackCreate.Build "TB-A" 3 None (Some "not a url") None None in
  let r := post_api_feedback (fun _ => false) body 60 Sample.id4 Sample.w0 in
  r.1 = Raise (ValidationError ["photo_url"]) ∧ r.2 = Sample.w0.
Proof.
  intros body r.
  destruct (submit_feedback_invalid_photo_url (fun _ => false) body 60 Sample.id4
              Sample.db0
              (Document "0000000000000000000000f1"
                 (list_to_map [("code", VStr "TB-A"); ("name", VStr "Toilet Block A")]))
              "not a url")
    as (Hr & _ & Hw).
  - in_sample.
  - vm_compute. reflexivity.
  - reflexivity.
  - reflexivity.
  - reflexivity.
  - split; assumption.
Defined.

(** An Assign with a malformed identifier fails and changes nothing. *)
Lemma failed_request_changes_nothing_witness :
  step Sample.accept_all
    (AssignFeedback "xyz" (AssignPayload.Build Sample.staffA) 50 51) Sample.w0
  = Sample.w0.
Proof.
  apply (failed_request_changes_nothing Sample.accept_all
           (AssignFeedback "xyz" (AssignPayload.Build Sample.staffA) 50 51)
           Sample.w0 (ValueError "Invalid ObjectId")).
  - intros i Hi. discriminate.
  - vm_compute. reflexivity.
Defined.

(** The statistics request reads only. *)
Lemma read_only_requests_witness : step Sample.accept_all Stats Sample.w0 = Sample.w0.
Proof. apply (read_only_requests Sample.accept_all Stats Sample.w0). reflexivity. Defined.

(** The statuses of the sample store stay in the lifecycle after a Resolve. *)
Lemma status_domain_invariant_witness :
  Forall valid_status
    (collection_of "feedback"
       (step Sample.accept_all
          (ResolveTask Sample.id1 (ResolvePayload.Build None None None) 50 51)
          Sample.w0)).
Proof.
  apply (status_domain_invariant Sample.accept_all).
  vm_compute (collection_of "feedback" Sample.w0).
  apply Forall_cons; split;
    [|apply Forall_cons; split; [|apply Forall_cons; split; [|apply Forall_nil_2]]];
    vm_compute; auto.
Defined.

(** The codes of the sample store stay distinct after a registration. *)
Lemma facility_codes_stay_unique_witness :
  NoDup (facility_codes
           (step Sample.accept_all
              (CreateFacility
                 (Facility.Build "TB-B" "Toilet Block B" None None None None true)
                 60 "0000000000000000000000f2")
              Sample.w0)).
Proof.
  apply (facility_codes_stay_unique Sample.accept_all).
  apply (bool_decide_unpack _). vm_compute. exact I.
Defined.
